(** * Solar Productive Use Calculator: the calculation of [app.py]

    A shallow embedding of the arithmetic that [app.py] runs when the
    "Calculate" button is pressed (lines 351-419), of the payback block
    (lines 706-715) and of the currency conversion done at display time.

    Number model.  Python's [float] and [int] values are embedded as exact
    numbers: a [float] is a rational of [Q], an [int] is an integer of [Z]
    (injected into [Q] where Python promotes it).  Equality of rationals is
    [Qeq], written [==].  Rounding error, infinities and NaN of binary64 are
    outside this model; the statements about it are statements of exact
    arithmetic.  Python's [/] raises [ZeroDivisionError] on a zero divisor,
    which [Q]'s division does not: every division by a variable goes through
    the checked [Py.div].

    Where rounding decides, the same lines are embedded a second time in
    module [Binary64], over the primitive binary64 floats, and evaluated
    there. *)

From Stdlib Require Import ZArith QArith Qround Qpower Qabs Lia Lqa Bool List.
From stdpp Require Import base option gmap strings sorting.
From Stdlib Require Import Floats.PrimFloat Floats.SpecFloat Floats.FloatOps.

#[local] Set Warnings "-inexact-float".
Import ListNotations.

Local Open Scope Q_scope.

(** ** Exceptions and the error monad *)

Module Py.

(** The exceptions the calculation can raise. *)
Inductive exception : Type :=
  | ZeroDivisionError
  | KeyError.

(** A computation either raises or returns. *)
Inductive res (A : Type) : Type :=
  | Raise (e : exception)
  | Ok (a : A).
Arguments Raise {A} e.
Arguments Ok {A} a.

Definition bind {A B : Type} (m : res A) (k : A -> res B) : res B :=
  match m with
  | Raise e => Raise e
  | Ok a => k a
  end.

Definition returns {A : Type} (m : res A) : Prop := exists a, m = Ok a.

(** [x / y] *)
Definition div (x y : Q) : res Q :=
  if Qeq_bool y 0 then Raise ZeroDivisionError else Ok (x / y).

(** [x ** n] for an integer exponent [n]: a zero base cannot be raised to a
    negative power. *)
Definition pow (x : Q) (n : Z) : res Q :=
  if Qeq_bool x 0 && (n <? 0)%Z then Raise ZeroDivisionError else Ok (x ^ n).

(** [math.ceil] *)
Definition ceil (x : Q) : Z := Qceiling x.

(** [d[k]] *)
Definition getitem {V : Type} (d : gmap string V) (k : string) : res V :=
  match d !! k with
  | Some v => Ok v
  | None => Raise KeyError
  end.

(** [d.get(k, dflt)] *)
Definition get {V : Type} (d : gmap string V) (k : string) (dflt : V) : V :=
  default dflt (d !! k).

(** [x > 0] and [x >= y] as Python evaluates them, to a [bool]. *)
Definition gt0 (x : Q) : bool := negb (Qle_bool x 0).
Definition ge (x y : Q) : bool := Qle_bool y x.

End Py.

Notation "'let*' x ':=' m 'in' k" := (Py.bind m (fun x => k))
  (at level 10, x name, m at level 100, k at level 200).

(** ** Module-level constants and the appliance catalogue *)

(* Panel specs *)
Definition panel_wattage_kw : Q := 5 # 10.
Definition panel_cost : Z := 50.

Definition power_map : gmap string Q :=
  {[ "Mill 2kW" := 2 # 1; "Mill 3kW" := 3 # 1 ]}.
Definition price_map_usd : gmap string Z :=
  {[ "Mill 2kW" := 600%Z; "Mill 3kW" := 800%Z ]}.
Definition processing_speed_map : gmap string Z :=
  {[ "Mill 2kW" := 100%Z; "Mill 3kW" := 150%Z ]}.

(* Appliance & system options *)
Definition appliances : list string := ["Choose one"; "Mill 2kW"; "Mill 3kW"].
Definition system_rating : list string := ["Choose one"; "AC"; "DC"].

(** ** The form

    One field per input widget, typed as [st.number_input] returns it: an
    [int] where value, bounds and step are all integers, a [float]
    otherwise.  [interest_rate_input] is the percentage typed in the
    "Interest Rate (p.a. %)" widget, before the division by 100. *)

Record Form : Type := {
  selected_appliance : string;
  selected_system : string;
  runtime_per_day : Q;
  operating_days : Z;
  income_per_kg : Q;
  sun_hours : Q;
  system_efficiency : Z;
  battery_hours : Z;
  daily_operating_cost : Q;
  loan_term_years : Z;
  interest_rate_input : Q;
  deposit : Q;
  install_increase : Z;
  selected_currency : string
}.

Definition interest_rate (i : Form) : Q := interest_rate_input i / 100.

Definition install_multiplier (i : Form) : Q :=
  1 + (inject_Z (install_increase i) / 100).

(** The bounds the widgets enforce ([min_value], [max_value] and the option
    lists of the select boxes).  The calculation itself does not check
    them. *)
Record widget_bounds (i : Form) : Prop := {
  wb_appliance : In (selected_appliance i) appliances;
  wb_system : In (selected_system i) system_rating;
  wb_runtime : 1 <= runtime_per_day i;
  wb_operating_days : (1 <= operating_days i)%Z;
  wb_income_per_kg : 0 <= income_per_kg i;
  wb_sun_hours : 1 <= sun_hours i;
  wb_system_efficiency : (1 <= system_efficiency i <= 100)%Z;
  wb_battery_hours : (0 <= battery_hours i)%Z;
  wb_loan_term_years : (1 <= loan_term_years i)%Z;
  wb_interest_rate : 0 <= interest_rate_input i;
  wb_deposit : 0 <= deposit i;
  wb_install_increase : (0 <= install_increase i <= 100)%Z
}.

(** ** The calculation, block by block *)

(** Lookup values (lines 351-354). *)
Record Appliance : Type := {
  power : Q;
  price_usd : Z;
  processing_speed : Z
}.

Definition lookup (i : Form) : Py.res Appliance :=
  let* power := Py.getitem power_map (selected_appliance i) in
  let* price_usd := Py.getitem price_map_usd (selected_appliance i) in
  let* processing_speed :=
    Py.getitem processing_speed_map (selected_appliance i) in
  Py.Ok {| power := power; price_usd := price_usd;
           processing_speed := processing_speed |}.

(** "Calculations - all in USD" (lines 360-373). *)
Record Calculations : Type := {
  specific_efficiency : Q;
  energy_required_per_day : Q;
  energy_production : Q;
  production_per_day : Q;
  income_per_hour : Q;
  income_per_day : Q;
  gross_income_per_year : Q;
  net_income_per_day : Q;
  panel_energy_per_day : Q;
  panels_required : Z;
  solar_panel_cost : Z;
  recommended_solar_size : Q;
  battery_capacity : Q
}.

Definition calculations (a : Appliance) (i : Form) : Py.res Calculations :=
  let* specific_efficiency :=
    Py.div (inject_Z (processing_speed a)) (power a) in
  let energy_required_per_day := runtime_per_day i * power a in
  let* energy_production :=
    Py.div energy_required_per_day (inject_Z (system_efficiency i) / 100) in
  let production_per_day := specific_efficiency * energy_required_per_day in
  let income_per_hour := income_per_kg i * inject_Z (processing_speed a) in
  let income_per_day := income_per_kg i * production_per_day in
  let gross_income_per_year := income_per_day * inject_Z (operating_days i) in
  let net_income_per_day := income_per_day - daily_operating_cost i in
  let panel_energy_per_day := panel_wattage_kw * sun_hours i in
  let* panels_ratio := Py.div energy_production panel_energy_per_day in
  let panels_required := Py.ceil panels_ratio in
  let solar_panel_cost := (panels_required * panel_cost)%Z in
  let* size_ratio := Py.div energy_production (sun_hours i) in
  let recommended_solar_size := inject_Z (Py.ceil (size_ratio * 2)) / 2 in
  let battery_capacity :=
    recommended_solar_size * inject_Z (battery_hours i) in
  Py.Ok {| specific_efficiency := specific_efficiency;
           energy_required_per_day := energy_required_per_day;
           energy_production := energy_production;
           production_per_day := production_per_day;
           income_per_hour := income_per_hour;
           income_per_day := income_per_day;
           gross_income_per_year := gross_income_per_year;
           net_income_per_day := net_income_per_day;
           panel_energy_per_day := panel_energy_per_day;
           panels_required := panels_required;
           solar_panel_cost := solar_panel_cost;
           recommended_solar_size := recommended_solar_size;
           battery_capacity := battery_capacity |}.

(** Component and total costs in USD (lines 375-390).  Nothing here can
    raise. *)
Record Costs : Type := {
  inverter_cost : Q;
  controller_cost : Q;
  battery_cost : Q;
  fob_subtotal_usd : Q;
  total_with_import_usd : Q;
  loan_principal_usd : Q
}.

Definition costs (a : Appliance) (c : Calculations) (i : Form) : Costs :=
  let inverter_cost :=
    if String.eqb (selected_system i) "AC"
    then recommended_solar_size c * 100 else 0 in
  let controller_cost :=
    if String.eqb (selected_system i) "AC" then 0
    else if String.eqb (selected_system i) "DC"
    then recommended_solar_size c * 50 else 0 in
  let battery_cost := battery_capacity c * 300 in
  let fob_subtotal_usd :=
    inject_Z (price_usd a) + inject_Z (solar_panel_cost c) + inverter_cost
    + controller_cost + battery_cost in
  let total_with_import_usd := fob_subtotal_usd * install_multiplier i in
  let loan_principal_usd := total_with_import_usd - deposit i in
  {| inverter_cost := inverter_cost;
     controller_cost := controller_cost;
     battery_cost := battery_cost;
     fob_subtotal_usd := fob_subtotal_usd;
     total_with_import_usd := total_with_import_usd;
     loan_principal_usd := loan_principal_usd |}.

(** Loan calculations in USD (lines 392-410). *)
Record Loan : Type := {
  months : Z;
  monthly_rate : Q;
  monthly_repayment_usd : Q;
  total_repayment_usd : Q;
  total_interest_paid_usd : Q;
  annual_repayment_usd : Q;
  daily_repayment_usd : Q;
  repayment_percentage : Q
}.

(** The [if monthly_rate > 0: ... else: ...] statement of lines 396-399,
    which assigns [monthly_repayment_usd]. *)
Definition monthly_repayment (principal : Q) (months : Z) (monthly_rate : Q)
  : Py.res Q :=
  if Py.gt0 monthly_rate then
    let* discount := Py.pow (1 + monthly_rate) (- months) in
    Py.div (principal * monthly_rate) (1 - discount)
  else
    Py.div principal (inject_Z months).

Definition loan (c : Calculations) (k : Costs) (i : Form) : Py.res Loan :=
  let months := (loan_term_years i * 12)%Z in
  let monthly_rate := interest_rate i / 12 in
  let* monthly_repayment_usd :=
    monthly_repayment (loan_principal_usd k) months monthly_rate in
  let total_repayment_usd := inject_Z months * monthly_repayment_usd in
  let total_interest_paid_usd := total_repayment_usd - loan_principal_usd k in
  let annual_repayment_usd := monthly_repayment_usd * 12 in
  let daily_repayment_usd := annual_repayment_usd / 365 in
  let* repayment_percentage :=
    if Py.gt0 (income_per_day c) then
      let* share := Py.div daily_repayment_usd (income_per_day c) in
      Py.Ok (share * 100)
    else Py.Ok 0 in
  Py.Ok {| months := months;
           monthly_rate := monthly_rate;
           monthly_repayment_usd := monthly_repayment_usd;
           total_repayment_usd := total_repayment_usd;
           total_interest_paid_usd := total_interest_paid_usd;
           annual_repayment_usd := annual_repayment_usd;
           daily_repayment_usd := daily_repayment_usd;
           repayment_percentage := repayment_percentage |}.

(** Business viability (lines 412-419).  [viability_text] takes one of three
    values: "Yes" (class success-box), "No" (class error-box) and "N/A"
    (class warning-box). *)
Inductive Verdict : Type :=
  | Viable          (* "Yes", success-box *)
  | NotViable       (* "No", error-box *)
  | NotApplicable.  (* "N/A", warning-box *)

Record Viability : Type := {
  viable_business : bool;
  viability_text : Verdict
}.

Definition business_viability (net_income_per_day daily_repayment_usd : Q)
  : Viability :=
  if Py.gt0 net_income_per_day && Py.gt0 daily_repayment_usd then
    let viable_business := Py.ge net_income_per_day daily_repayment_usd in
    {| viable_business := viable_business;
       viability_text := if viable_business then Viable else NotViable |}
  else
    {| viable_business := false;
       viability_text := NotApplicable |}.

(** Everything the button handler has computed when it reaches the display
    code (lines 351-419). *)
Record Results : Type := {
  appliance : Appliance;
  rate : Q;
  calc : Calculations;
  cost : Costs;
  repayment : Loan;
  viability : Viability
}.

Definition calculate (rates : gmap string Q) (i : Form) : Py.res Results :=
  let* a := lookup i in
  let rate := Py.get rates (selected_currency i) 1 in
  let* c := calculations a i in
  let k := costs a c i in
  let* l := loan c k i in
  let v := business_viability (net_income_per_day c) (daily_repayment_usd l) in
  Py.Ok {| appliance := a; rate := rate; calc := c; cost := k;
           repayment := l; viability := v |}.

(** Payback analysis (lines 706-708): [Some payback_years] when the summary
    card is shown, [None] when the warning is shown instead. *)
Definition payback (i : Form) (r : Results) : Py.res (option Q) :=
  if viable_business (viability r)
     && Py.gt0 (annual_repayment_usd (repayment r)) then
    let* payback_years :=
      Py.div (total_with_import_usd (cost r))
             (net_income_per_day (calc r) * inject_Z (operating_days i)) in
    Py.Ok (Some payback_years)
  else Py.Ok None.

(** ** Display

    The amounts shown in the selected currency.  Each is a USD quantity
    multiplied by [rate] inside the call of [round(..., 1)]; nothing is
    converted before this point. *)

(** [round(x, 1)] on an exact number: to the nearest tenth, ties to the even
    tenth. *)
Definition round_half_even (x : Q) : Z :=
  let f := Qfloor x in
  match Qcompare (x - inject_Z f) (1 # 2) with
  | Lt => f
  | Gt => (f + 1)%Z
  | Eq => if Z.even f then f else (f + 1)%Z
  end.

Definition round1 (x : Q) : Q := inject_Z (round_half_even (x * 10)) / 10.

(** The [metric_card] calls whose unit is [selected_currency], as title and
    value, in page order (tabs "Overview", "Financials", "Viability"). *)
Definition money_cards (i : Form) (r : Results) : list (string * Q) :=
  let a := appliance r in
  let c := calc r in
  let k := cost r in
  let l := repayment r in
  let rate := rate r in
  [ ("Daily Net Income", round1 (net_income_per_day c * rate));
    ("Appliance Cost", round1 (inject_Z (price_usd a) * rate));
    ("Solar Panel Cost", round1 (inject_Z (solar_panel_cost c) * rate));
    (if String.eqb (selected_system i) "AC"
     then ("Inverter Cost", round1 (inverter_cost k * rate))
     else ("Controller Cost", round1 (controller_cost k * rate)));
    ("Battery Cost", round1 (battery_cost k * rate));
    ("FOB Subtotal", round1 (fob_subtotal_usd k * rate));
    ("Installed Cost", round1 (total_with_import_usd k * rate));
    ("Loan Principal", round1 (loan_principal_usd k * rate));
    ("Monthly Payment", round1 (monthly_repayment_usd l * rate));
    ("Total Interest", round1 (total_interest_paid_usd l * rate));
    ("Daily Gross Income", round1 (income_per_day c * rate));
    ("Daily Net Income", round1 (net_income_per_day c * rate));
    ("Daily Loan Repayment", round1 (daily_repayment_usd l * rate)) ]
  ++ (if viable_business (viability r)
      then let surplus := net_income_per_day c - daily_repayment_usd l in
           [ ("Daily Surplus", round1 (surplus * rate)) ]
      else []).

(** The two amounts of the payback summary card (lines 709-714), shown when
    the payback years were computed. *)
Definition payback_summary (i : Form) (r : Results) (payback_years : option Q)
  : list (string * Q) :=
  match payback_years with
  | Some _ =>
      [ ("Total System Cost",
         round1 (total_with_import_usd (cost r) * rate r));
        ("Annual Net Profit",
         round1 (net_income_per_day (calc r) * inject_Z (operating_days i)
                 * rate r)) ]
  | None => []
  end.

(** What the page shows after the button is pressed. *)
Inductive Page : Type :=
  | Report (r : Results) (cards : list (string * Q))
      (payback_years : option Q)
  | SelectionError.  (* "Please select both an Appliance and System type" *)

Definition on_calculate (rates : gmap string Q) (i : Form) : Py.res Page :=
  if negb (String.eqb (selected_appliance i) "Choose one")
     && negb (String.eqb (selected_system i) "Choose one") then
    let* r := calculate rates i in
    let* payback_years := payback i r in
    Py.Ok (Report r (money_cards i r ++ payback_summary i r payback_years)
             payback_years)
  else Py.Ok SelectionError.

(** ** The scenario of the default form values *)

Definition scenario : Form := {|
  selected_appliance := "Mill 2kW";
  selected_system := "AC";
  runtime_per_day := 4;
  operating_days := 250;
  income_per_kg := 5 # 140;
  sun_hours := 4;
  system_efficiency := 80;
  battery_hours := 1;
  daily_operating_cost := 10;
  loan_term_years := 3;
  interest_rate_input := 15;
  deposit := 0;
  install_increase := 100;
  selected_currency := "USD"
|}.

(** ** The catalogue entries *)

Definition mill_2kw : Appliance :=
  {| power := 2 # 1; price_usd := 600; processing_speed := 100 |}.
Definition mill_3kw : Appliance :=
  {| power := 3 # 1; price_usd := 800; processing_speed := 150 |}.

(** ** Forms that differ in one widget *)

Definition with_interest_rate_input (x : Q) (i : Form) : Form := {|
  selected_appliance := selected_appliance i;
  selected_system := selected_system i;
  runtime_per_day := runtime_per_day i;
  operating_days := operating_days i;
  income_per_kg := income_per_kg i;
  sun_hours := sun_hours i;
  system_efficiency := system_efficiency i;
  battery_hours := battery_hours i;
  daily_operating_cost := daily_operating_cost i;
  loan_term_years := loan_term_years i;
  interest_rate_input := x;
  deposit := deposit i;
  install_increase := install_increase i;
  selected_currency := selected_currency i
|}.

Definition with_deposit (x : Q) (i : Form) : Form := {|
  selected_appliance := selected_appliance i;
  selected_system := selected_system i;
  runtime_per_day := runtime_per_day i;
  operating_days := operating_days i;
  income_per_kg := income_per_kg i;
  sun_hours := sun_hours i;
  system_efficiency := system_efficiency i;
  battery_hours := battery_hours i;
  daily_operating_cost := daily_operating_cost i;
  loan_term_years := loan_term_years i;
  interest_rate_input := interest_rate_input i;
  deposit := x;
  install_increase := install_increase i;
  selected_currency := selected_currency i
|}.

Definition with_selected_currency (cur : string) (i : Form) : Form := {|
  selected_appliance := selected_appliance i;
  selected_system := selected_system i;
  runtime_per_day := runtime_per_day i;
  operating_days := operating_days i;
  income_per_kg := income_per_kg i;
  sun_hours := sun_hours i;
  system_efficiency := system_efficiency i;
  battery_hours := battery_hours i;
  daily_operating_cost := daily_operating_cost i;
  loan_term_years := loan_term_years i;
  interest_rate_input := interest_rate_input i;
  deposit := deposit i;
  install_increase := install_increase i;
  selected_currency := cur
|}.

Definition with_income_per_kg (x : Q) (i : Form) : Form := {|
  selected_appliance := selected_appliance i;
  selected_system := selected_system i;
  runtime_per_day := runtime_per_day i;
  operating_days := operating_days i;
  income_per_kg := x;
  sun_hours := sun_hours i;
  system_efficiency := system_efficiency i;
  battery_hours := battery_hours i;
  daily_operating_cost := daily_operating_cost i;
  loan_term_years := loan_term_years i;
  interest_rate_input := interest_rate_input i;
  deposit := deposit i;
  install_increase := install_increase i;
  selected_currency := selected_currency i
|}.

(** ** Scenarios *)

(** The default scenario at zero interest. *)
Definition interest_free_scenario : Form :=
  with_interest_rate_input 0 scenario.

(** The default scenario with a deposit of 10000 USD, above the installed
    cost of 3700 USD. *)
Definition overpaid_scenario : Form := with_deposit 10000 scenario.

(** The sizing and costs of the default scenario, for use as concrete
    inputs of the later blocks. *)
Definition scenario_calculations : Calculations := {|
  specific_efficiency := 100 # 2;
  energy_required_per_day := 8;
  energy_production := 800 # 80;
  production_per_day := 800 # 2;
  income_per_hour := 500 # 140;
  income_per_day := 4000 # 280;
  gross_income_per_year := 1000000 # 280;
  net_income_per_day := 1200 # 280;
  panel_energy_per_day := 20 # 10;
  panels_required := 5;
  solar_panel_cost := 250;
  recommended_solar_size := 5 # 2;
  battery_capacity := 5 # 2
|}.

Definition scenario_costs : Costs :=
  costs mill_2kw scenario_calculations scenario.

(** ** The blocks as equations *)

(** What the sizing block computes, as equations between its outputs. *)
Record calculations_eqs (a : Appliance) (i : Form) (c : Calculations)
  : Prop := {
  eq_specific_efficiency :
    specific_efficiency c = inject_Z (processing_speed a) / power a;
  eq_energy_required :
    energy_required_per_day c = runtime_per_day i * power a;
  eq_energy_production :
    energy_production c =
    energy_required_per_day c / (inject_Z (system_efficiency i) / 100);
  eq_production_per_day :
    production_per_day c = specific_efficiency c * energy_required_per_day c;
  eq_income_per_hour :
    income_per_hour c = income_per_kg i * inject_Z (processing_speed a);
  eq_income_per_day :
    income_per_day c = income_per_kg i * production_per_day c;
  eq_gross_income_per_year :
    gross_income_per_year c = income_per_day c * inject_Z (operating_days i);
  eq_net_income_per_day :
    net_income_per_day c = income_per_day c - daily_operating_cost i;
  eq_panel_energy_per_day :
    panel_energy_per_day c = panel_wattage_kw * sun_hours i;
  eq_panels_required :
    panels_required c =
    Py.ceil (energy_production c / (panel_wattage_kw * sun_hours i));
  eq_solar_panel_cost :
    solar_panel_cost c = (panels_required c * panel_cost)%Z;
  eq_recommended_solar_size :
    recommended_solar_size c =
    inject_Z (Py.ceil (energy_production c / sun_hours i * 2)) / 2;
  eq_battery_capacity :
    battery_capacity c =
    recommended_solar_size c * inject_Z (battery_hours i)
}.

(** What the loan block computes, as equations between its outputs. *)
Record loan_eqs (c : Calculations) (k : Costs) (i : Form) (l : Loan)
  : Prop := {
  eq_months : months l = (loan_term_years i * 12)%Z;
  eq_monthly_rate : monthly_rate l = interest_rate i / 12;
  eq_monthly_repayment :
    monthly_repayment (loan_principal_usd k) (months l) (monthly_rate l) =
    Py.Ok (monthly_repayment_usd l);
  eq_total_repayment :
    total_repayment_usd l = inject_Z (months l) * monthly_repayment_usd l;
  eq_total_interest :
    total_interest_paid_usd l = total_repayment_usd l - loan_principal_usd k;
  eq_annual_repayment :
    annual_repayment_usd l = monthly_repayment_usd l * 12;
  eq_daily_repayment :
    daily_repayment_usd l = annual_repayment_usd l / 365;
  eq_repayment_percentage :
    repayment_percentage l =
    if Py.gt0 (income_per_day c)
    then daily_repayment_usd l / income_per_day c * 100 else 0
}.

(** The USD amounts behind [money_cards], before conversion and rounding. *)
Definition usd_amounts (i : Form) (r : Results) : list (string * Q) :=
  let a := appliance r in
  let c := calc r in
  let k := cost r in
  let l := repayment r in
  [ ("Daily Net Income", net_income_per_day c);
    ("Appliance Cost", inject_Z (price_usd a));
    ("Solar Panel Cost", inject_Z (solar_panel_cost c));
    (if String.eqb (selected_system i) "AC"
     then ("Inverter Cost", inverter_cost k)
     else ("Controller Cost", controller_cost k));
    ("Battery Cost", battery_cost k);
    ("FOB Subtotal", fob_subtotal_usd k);
    ("Installed Cost", total_with_import_usd k);
    ("Loan Principal", loan_principal_usd k);
    ("Monthly Payment", monthly_repayment_usd l);
    ("Total Interest", total_interest_paid_usd l);
    ("Daily Gross Income", income_per_day c);
    ("Daily Net Income", net_income_per_day c);
    ("Daily Loan Repayment", daily_repayment_usd l) ]
  ++ (if viable_business (viability r)
      then [ ("Daily Surplus",
              net_income_per_day c - daily_repayment_usd l) ]
      else []).

(** The USD amounts behind [payback_summary]. *)
Definition usd_payback_amounts (i : Form) (r : Results)
  (payback_years : option Q) : list (string * Q) :=
  match payback_years with
  | Some _ =>
      [ ("Total System Cost", total_with_import_usd (cost r));
        ("Annual Net Profit",
         net_income_per_day (calc r) * inject_Z (operating_days i)) ]
  | None => []
  end.

(** A USD amount as a card shows it: [round(amount * rate, 1)]. *)
Definition displayed (rate : Q) (card : string * Q) : string * Q :=
  (fst card, round1 (snd card * rate)).

(** ** Exchange rates, location and the currency selector *)

(** [get_exchange_rates] (lines 172-179).  The HTTP exchange is outside the
    embedding; its outcome is an input: the status code of the response and
    the [rates] object of its JSON body.  Any other status than 200 gives
    the empty table. *)
Definition get_exchange_rates (status_code : Z) (body_rates : gmap string Q)
  : gmap string Q :=
  if (status_code =? 200)%Z then body_rates else ∅.

(** [get_user_currency] (lines 182-189).  [ip_info] is the decoded JSON
    object of the geolocation reply, its values taken as strings, or [None]
    when anything in the [try] block raised, which the bare [except]
    catches. *)
Definition get_user_currency (ip_info : option (gmap string string))
  : string * string :=
  match ip_info with
  | Some info =>
      let country := Py.get info "country_name" "Unknown" in
      let currency := Py.get info "currency" "USD" in
      (country, currency)
  | None => ("Unknown", "USD")
  end.

(** [rates.keys()] *)
Definition keys (rates : gmap string Q) : list string :=
  (map_to_list rates).*1.

(** [sorted] on strings: ascending in the order of [str], which compares
    character by character. *)
Definition sorted (l : list string) : list string :=
  merge_sort String.le l.

(** [currencies] (line 193). *)
Definition currencies (rates : gmap string Q) : list string :=
  "USD" :: sorted (filter (fun c => c <> "USD") (keys rates)).

(** Currency settings (lines 330-339).  [choice] is what the select box
    returns when the location is not used. *)
Definition currency_settings (rates : gmap string Q) (use_location : bool)
  (ip_info : option (gmap string string)) (choice : string) : string :=
  if use_location then
    let detected_currency := snd (get_user_currency ip_info) in
    if bool_decide (detected_currency ∈ currencies rates)
    then detected_currency else "USD"
  else choice.

(** ** Further forms *)

Definition with_runtime_per_day (x : Q) (i : Form) : Form := {|
  selected_appliance := selected_appliance i;
  selected_system := selected_system i;
  runtime_per_day := x;
  operating_days := operating_days i;
  income_per_kg := income_per_kg i;
  sun_hours := sun_hours i;
  system_efficiency := system_efficiency i;
  battery_hours := battery_hours i;
  daily_operating_cost := daily_operating_cost i;
  loan_term_years := loan_term_years i;
  interest_rate_input := interest_rate_input i;
  deposit := deposit i;
  install_increase := install_increase i;
  selected_currency := selected_currency i
|}.

(** The default scenario run for 8 hours a day. *)
Definition long_day_scenario : Form := with_runtime_per_day 8 scenario.

(** The default scenario with the whole installed cost of 3700 USD paid as
    deposit. *)
Definition paid_up_scenario : Form := with_deposit 3700 scenario.

(** The default scenario without sun. *)
Definition no_sun_scenario : Form := {|
  selected_appliance := selected_appliance scenario;
  selected_system := selected_system scenario;
  runtime_per_day := runtime_per_day scenario;
  operating_days := operating_days scenario;
  income_per_kg := income_per_kg scenario;
  sun_hours := 0;
  system_efficiency := system_efficiency scenario;
  battery_hours := battery_hours scenario;
  daily_operating_cost := daily_operating_cost scenario;
  loan_term_years := loan_term_years scenario;
  interest_rate_input := interest_rate_input scenario;
  deposit := deposit scenario;
  install_increase := install_increase scenario;
  selected_currency := selected_currency scenario
|}.

(** The default scenario with nothing earned per kg. *)
Definition no_income_scenario : Form := with_income_per_kg 0 scenario.

(** * The calculation in binary64

    The same lines of [app.py], with Python's [float] as it is at run time:
    IEEE 754 binary64, every operation rounded to nearest, ties to even,
    with infinities and NaN.  The exact model above is what the formulas
    compute on the values of the form; this one is what the program
    computes.  It is used where the two differ. *)

Module Binary64.

Local Open Scope float_scope.

(** The exceptions of the exact model, and those of [math.ceil] on
    infinity and on NaN. *)
Inductive exception : Type :=
  | ZeroDivisionError
  | KeyError
  | OverflowError
  | ValueError.

(** A computation raises, returns, or ends in the C library's [pow], whose
    result is not fixed bit for bit: [Libm] stands for "whatever the
    platform's [pow] gives", an [OverflowError] included. *)
Inductive res (A : Type) : Type :=
  | Raise (e : exception)
  | Ok (a : A)
  | Libm.
Arguments Raise {A} e.
Arguments Ok {A} a.
Arguments Libm {A}.

Definition bind {A B : Type} (m : res A) (k : A -> res B) : res B :=
  match m with
  | Raise e => Raise e
  | Ok a => k a
  | Libm => Libm
  end.

(** The [float] of an [int], rounded to nearest.  (Python raises
    [OverflowError] for an [int] of 2^1024 and more; the integers of the
    widgets and the ceilings of finite floats are below that.) *)
Definition float_of_int (z : Z) : float :=
  SF2Prim (binary_normalize prec emax z 0 false).

(** The exact value of a finite [float]; 0 stands in for infinities and
    NaN, which have none. *)
Definition to_Q (x : float) : Q :=
  match Prim2SF x with
  | S754_finite s m e =>
      (inject_Z (if s then Z.neg m else Z.pos m) * (2 # 1) ^ e)%Q
  | _ => 0%Q
  end.

(** [x / y] on floats: a zero divisor raises, everything else is IEEE. *)
Definition div (x y : float) : res float :=
  if y =? 0 then Raise ZeroDivisionError else Ok (x / y).

(** [math.ceil]: the exact ceiling of a finite float, as an [int]. *)
Definition ceil (x : float) : res Z :=
  match Prim2SF x with
  | S754_zero _ => Ok 0%Z
  | S754_finite s m e =>
      let n := if s then Z.neg m else Z.pos m in
      Ok (if (0 <=? e)%Z then (n * 2 ^ e)%Z
          else (- ((- n) / 2 ^ (- e)))%Z)
  | S754_infinity _ => Raise OverflowError
  | S754_nan => Raise ValueError
  end.

(** [x ** n] for a float [x] and an [int] [n] of magnitude below 2^53,
    after [float_pow] of CPython: the special cases it decides itself, in
    its order (exponent zero, NaN, infinite base, zero base, base 1 or -1),
    and the call of the C library for the rest. *)
Definition pow (x : float) (n : Z) : res float :=
  if (n =? 0)%Z then Ok 1
  else if is_nan x then Ok x
  else if is_infinity x then
    Ok (if (0 <? n)%Z then (if Z.odd n then x else abs x)
        else (if Z.odd n && (x <? 0) then -0 else 0))
  else if x =? 0 then
    if (n <? 0)%Z then Raise ZeroDivisionError
    else Ok (if Z.odd n then x else 0)
  else if abs x =? 1 then
    Ok (if (x <? 0) && Z.odd n then -1 else 1)
  else Libm.

(** [d[k]] *)
Definition getitem {V : Type} (d : gmap string V) (k : string) : res V :=
  match d !! k with
  | Some v => Ok v
  | None => Raise KeyError
  end.

(* Panel specs *)
Definition panel_wattage_kw : float := 0.5.
Definition panel_cost : Z := 50.

Definition power_map : gmap string float :=
  {[ "Mill 2kW" := 2.0; "Mill 3kW" := 3.0 ]}.
Definition price_map_usd : gmap string Z :=
  {[ "Mill 2kW" := 600%Z; "Mill 3kW" := 800%Z ]}.
Definition processing_speed_map : gmap string Z :=
  {[ "Mill 2kW" := 100%Z; "Mill 3kW" := 150%Z ]}.

(** The form, with the float widgets as floats. *)
Record Form : Type := {
  selected_appliance : string;
  selected_system : string;
  runtime_per_day : float;
  operating_days : Z;
  income_per_kg : float;
  sun_hours : float;
  system_efficiency : Z;
  battery_hours : Z;
  daily_operating_cost : float;
  loan_term_years : Z;
  interest_rate_input : float;
  deposit : float;
  install_increase : Z;
  selected_currency : string
}.

Definition interest_rate (i : Form) : float := interest_rate_input i / 100.

Definition install_multiplier (i : Form) : float :=
  1 + (float_of_int (install_increase i) / 100).

(** The bounds of the widgets, decided. *)
Definition in_widget_bounds (i : Form) : bool :=
  bool_decide (selected_appliance i ∈ appliances)
  && bool_decide (selected_system i ∈ system_rating)
  && (1 <=? runtime_per_day i)
  && (1 <=? operating_days i)%Z
  && (0 <=? income_per_kg i)
  && (1 <=? sun_hours i)
  && (1 <=? system_efficiency i)%Z && (system_efficiency i <=? 100)%Z
  && (0 <=? battery_hours i)%Z
  && (1 <=? loan_term_years i)%Z
  && (0 <=? interest_rate_input i)
  && (0 <=? deposit i)
  && (0 <=? install_increase i)%Z && (install_increase i <=? 100)%Z.

(** Lookup values (lines 353-355). *)
Record Appliance : Type := {
  power : float;
  price_usd : Z;
  processing_speed : Z
}.

Definition lookup (i : Form) : res Appliance :=
  bind (getitem power_map (selected_appliance i)) (fun power =>
  bind (getitem price_map_usd (selected_appliance i)) (fun price_usd =>
  bind (getitem processing_speed_map (selected_appliance i))
    (fun processing_speed =>
  Ok {| power := power; price_usd := price_usd;
        processing_speed := processing_speed |}))).

(** "Calculations - all in USD" (lines 361-373). *)
Record Calculations : Type := {
  specific_efficiency : float;
  energy_required_per_day : float;
  energy_production : float;
  production_per_day : float;
  income_per_hour : float;
  income_per_day : float;
  gross_income_per_year : float;
  net_income_per_day : float;
  panel_energy_per_day : float;
  panels_required : Z;
  solar_panel_cost : Z;
  recommended_solar_size : float;
  battery_capacity : float
}.

Definition calculations (a : Appliance) (i : Form) : res Calculations :=
  bind (div (float_of_int (processing_speed a)) (power a))
    (fun specific_efficiency =>
  let energy_required_per_day := runtime_per_day i * power a in
  bind (div energy_required_per_day
          (float_of_int (system_efficiency i) / 100))
    (fun energy_production =>
  let production_per_day := specific_efficiency * energy_required_per_day in
  let income_per_hour :=
    income_per_kg i * float_of_int (processing_speed a) in
  let income_per_day := income_per_kg i * production_per_day in
  let gross_income_per_year :=
    income_per_day * float_of_int (operating_days i) in
  let net_income_per_day := income_per_day - daily_operating_cost i in
  let panel_energy_per_day := panel_wattage_kw * sun_hours i in
  bind (div energy_production panel_energy_per_day) (fun panels_ratio =>
  bind (ceil panels_ratio) (fun panels_required =>
  let solar_panel_cost := (panels_required * panel_cost)%Z in
  bind (div energy_production (sun_hours i)) (fun size_ratio =>
  bind (ceil (size_ratio * 2)) (fun half_steps =>
  let recommended_solar_size := float_of_int half_steps / 2 in
  let battery_capacity :=
    recommended_solar_size * float_of_int (battery_hours i) in
  Ok {| specific_efficiency := specific_efficiency;
        energy_required_per_day := energy_required_per_day;
        energy_production := energy_production;
        production_per_day := production_per_day;
        income_per_hour := income_per_hour;
        income_per_day := income_per_day;
        gross_income_per_year := gross_income_per_year;
        net_income_per_day := net_income_per_day;
        panel_energy_per_day := panel_energy_per_day;
        panels_required := panels_required;
        solar_panel_cost := solar_panel_cost;
        recommended_solar_size := recommended_solar_size;
        battery_capacity := battery_capacity |})))))).

(** Costs in USD (lines 375-390).  The [int] zero of an absent inverter or
    controller is the float zero here: added to a float it gives the same
    float. *)
Record Costs : Type := {
  inverter_cost : float;
  controller_cost : float;
  battery_cost : float;
  fob_subtotal_usd : float;
  total_with_import_usd : float;
  loan_principal_usd : float
}.

Definition costs (a : Appliance) (c : Calculations) (i : Form) : Costs :=
  let inverter_cost :=
    if String.eqb (selected_system i) "AC"
    then recommended_solar_size c * 100 else 0 in
  let controller_cost :=
    if String.eqb (selected_system i) "AC" then 0
    else if String.eqb (selected_system i) "DC"
    then recommended_solar_size c * 50 else 0 in
  let battery_cost := battery_capacity c * 300 in
  let fob_subtotal_usd :=
    float_of_int (price_usd a + solar_panel_cost c) + inverter_cost
    + controller_cost + battery_cost in
  let total_with_import_usd := fob_subtotal_usd * install_multiplier i in
  let loan_principal_usd := total_with_import_usd - deposit i in
  {| inverter_cost := inverter_cost;
     controller_cost := controller_cost;
     battery_cost := battery_cost;
     fob_subtotal_usd := fob_subtotal_usd;
     total_with_import_usd := total_with_import_usd;
     loan_principal_usd := loan_principal_usd |}.

(** Loan calculations in USD (lines 392-410). *)
Record Loan : Type := {
  months : Z;
  monthly_rate : float;
  monthly_repayment_usd : float;
  total_repayment_usd : float;
  total_interest_paid_usd : float;
  annual_repayment_usd : float;
  daily_repayment_usd : float;
  repayment_percentage : float
}.

(** Lines 396-399.  The divisor of the [else] branch is the [int]
    [months]. *)
Definition monthly_repayment (principal : float) (months : Z)
  (monthly_rate : float) : res float :=
  if 0 <? monthly_rate then
    bind (pow (1 + monthly_rate) (- months)) (fun discount =>
    div (principal * monthly_rate) (1 - discount))
  else
    if (months =? 0)%Z then Raise ZeroDivisionError
    else Ok (principal / float_of_int months).

Definition loan (c : Calculations) (k : Costs) (i : Form) : res Loan :=
  let months := (loan_term_years i * 12)%Z in
  let monthly_rate := interest_rate i / 12 in
  bind (monthly_repayment (loan_principal_usd k) months monthly_rate)
    (fun monthly_repayment_usd =>
  let total_repayment_usd := float_of_int months * monthly_repayment_usd in
  let total_interest_paid_usd := total_repayment_usd - loan_principal_usd k in
  let annual_repayment_usd := monthly_repayment_usd * 12 in
  let daily_repayment_usd := annual_repayment_usd / 365 in
  bind (if 0 <? income_per_day c then
          bind (div daily_repayment_usd (income_per_day c)) (fun share =>
          Ok (share * 100))
        else Ok 0)
    (fun repayment_percentage =>
  Ok {| months := months;
        monthly_rate := monthly_rate;
        monthly_repayment_usd := monthly_repayment_usd;
        total_repayment_usd := total_repayment_usd;
        total_interest_paid_usd := total_interest_paid_usd;
        annual_repayment_usd := annual_repayment_usd;
        daily_repayment_usd := daily_repayment_usd;
        repayment_percentage := repayment_percentage |})).

(** Business viability (lines 412-419). *)
Record Viability : Type := {
  viable_business : bool;
  viability_text : Verdict
}.

Definition business_viability (net_income_per_day daily_repayment_usd : float)
  : Viability :=
  if (0 <? net_income_per_day) && (0 <? daily_repayment_usd) then
    let viable_business := daily_repayment_usd <=? net_income_per_day in
    {| viable_business := viable_business;
       viability_text := if viable_business then Viable else NotViable |}
  else
    {| viable_business := false;
       viability_text := NotApplicable |}.

(** Lines 353-419, the rate left out. *)
Record Results : Type := {
  appliance : Appliance;
  calc : Calculations;
  cost : Costs;
  repayment : Loan;
  viability : Viability
}.

Definition calculate (i : Form) : res Results :=
  bind (lookup i) (fun a =>
  bind (calculations a i) (fun c =>
  let k := costs a c i in
  bind (loan c k i) (fun l =>
  let v := business_viability (net_income_per_day c) (daily_repayment_usd l) in
  Ok {| appliance := a; calc := c; cost := k; repayment := l;
        viability := v |}))).

(** Payback analysis (lines 707-708). *)
Definition payback (i : Form) (r : Results) : res (option float) :=
  if viable_business (viability r)
     && (0 <? annual_repayment_usd (repayment r)) then
    bind (div (total_with_import_usd (cost r))
            (net_income_per_day (calc r) * float_of_int (operating_days i)))
      (fun payback_years =>
    Ok (Some payback_years))
  else Ok None.

(** The default form values. *)
Definition scenario : Form := {|
  selected_appliance := "Mill 2kW";
  selected_system := "AC";
  runtime_per_day := 4.0;
  operating_days := 250;
  income_per_kg := 5 / 140;
  sun_hours := 4.0;
  system_efficiency := 80;
  battery_hours := 1;
  daily_operating_cost := 10.0;
  loan_term_years := 3;
  interest_rate_input := 15.0;
  deposit := 0.0;
  install_increase := 100;
  selected_currency := "USD"
|}.

(** A form within the widget bounds: 1.8 hours of runtime, 1.2 sun hours,
    25 per cent efficiency. *)
Definition short_day : Form := {|
  selected_appliance := "Mill 2kW";
  selected_system := "AC";
  runtime_per_day := 1.8;
  operating_days := 250;
  income_per_kg := 5 / 140;
  sun_hours := 1.2;
  system_efficiency := 25;
  battery_hours := 1;
  daily_operating_cost := 10.0;
  loan_term_years := 3;
  interest_rate_input := 15.0;
  deposit := 0.0;
  install_increase := 100;
  selected_currency := "USD"
|}.

(** The default form at an interest of 1e-13 per cent a year. *)
Definition tiny_interest : Form := {|
  selected_appliance := "Mill 2kW";
  selected_system := "AC";
  runtime_per_day := 4.0;
  operating_days := 250;
  income_per_kg := 5 / 140;
  sun_hours := 4.0;
  system_efficiency := 80;
  battery_hours := 1;
  daily_operating_cost := 10.0;
  loan_term_years := 3;
  interest_rate_input := 1e-13;
  deposit := 0.0;
  install_increase := 100;
  selected_currency := "USD"
|}.

(** The default form without interest and with an income of 1e308 USD per
    kg. *)
Definition huge_income : Form := {|
  selected_appliance := "Mill 2kW";
  selected_system := "AC";
  runtime_per_day := 4.0;
  operating_days := 250;
  income_per_kg := 1e308;
  sun_hours := 4.0;
  system_efficiency := 80;
  battery_hours := 1;
  daily_operating_cost := 10.0;
  loan_term_years := 3;
  interest_rate_input := 0.0;
  deposit := 0.0;
  install_increase := 100;
  selected_currency := "USD"
|}.

End Binary64.

(** * Properties *)

(** ** The Python primitives *)

Lemma gt0_true (x : Q) : Py.gt0 x = true <-> 0 < x.
Proof.
  unfold Py.gt0. rewrite negb_true_iff, <- not_true_iff_false, Qle_bool_iff.
  split; [apply Qnot_le_lt | apply Qlt_not_le].
Qed.

Lemma gt0_false (x : Q) : Py.gt0 x = false <-> x <= 0.
Proof.
  unfold Py.gt0. rewrite negb_false_iff. apply Qle_bool_iff.
Qed.

Lemma ge_true (x y : Q) : Py.ge x y = true <-> y <= x.
Proof. apply Qle_bool_iff. Qed.

Lemma ge_false (x y : Q) : Py.ge x y = false <-> x < y.
Proof.
  unfold Py.ge. rewrite <- not_true_iff_false, Qle_bool_iff.
  split; [apply Qnot_le_lt | apply Qlt_not_le].
Qed.

Lemma div_returns (x y : Q) : ~ y == 0 -> Py.div x y = Py.Ok (x / y).
Proof.
  intros Hy. unfold Py.div.
  destruct (Qeq_bool y 0) eqn:E; [| reflexivity].
  apply Qeq_bool_iff in E. contradiction.
Qed.

Lemma div_raises (x y : Q) : y == 0 -> Py.div x y = Py.Raise Py.ZeroDivisionError.
Proof.
  intros Hy. unfold Py.div. apply Qeq_bool_iff in Hy. now rewrite Hy.
Qed.

Lemma div_inv (x y q : Q) : Py.div x y = Py.Ok q -> ~ y == 0 /\ q = x / y.
Proof.
  unfold Py.div. destruct (Qeq_bool y 0) eqn:E; [discriminate |].
  intros [= <-]. split; [| reflexivity].
  intros Hy. apply Qeq_bool_iff in Hy. congruence.
Qed.

Lemma nonzero_of_pos (x : Q) : 0 < x -> ~ x == 0.
Proof. intros H E. rewrite E in H. discriminate. Qed.

Lemma pow_returns (x : Q) (n : Z) : ~ x == 0 -> Py.pow x n = Py.Ok (x ^ n).
Proof.
  intros Hx. unfold Py.pow.
  destruct (Qeq_bool x 0) eqn:E; [| reflexivity].
  apply Qeq_bool_iff in E. contradiction.
Qed.

(** Inversion of one [let*] step of a computation that returned. *)
Ltac bind_inv H :=
  match type of H with
  | Py.bind ?m _ = Py.Ok _ =>
      let E := fresh "E" in
      let x := fresh "x" in
      destruct m as [| x] eqn:E; [discriminate H | cbn [Py.bind] in H]
  end.

(** Resolution of the next division of a goal, given that its divisor is not
    zero. *)
Ltac div_step :=
  rewrite div_returns by assumption; cbn [Py.bind].

(** ** Business viability *)

Lemma viability_text_viable (net daily : Q) :
  viability_text (business_viability net daily) = Viable
  <-> 0 < net /\ 0 < daily /\ daily <= net.
Proof.
  unfold business_viability.
  destruct (Py.gt0 net) eqn:Hn; destruct (Py.gt0 daily) eqn:Hd;
    try destruct (Py.ge net daily) eqn:Hg; cbn;
    rewrite ?gt0_true, ?gt0_false, ?ge_true, ?ge_false in *;
    split; try discriminate; try tauto; intros (? & ? & ?); lra.
Qed.

Lemma viability_text_not_applicable (net daily : Q) :
  viability_text (business_viability net daily) = NotApplicable
  <-> net <= 0 \/ daily <= 0.
Proof.
  unfold business_viability.
  destruct (Py.gt0 net) eqn:Hn; destruct (Py.gt0 daily) eqn:Hd;
    try destruct (Py.ge net daily) eqn:Hg; cbn;
    rewrite ?gt0_true, ?gt0_false, ?ge_true, ?ge_false in *;
    split; try discriminate; try tauto; intros [? | ?]; lra.
Qed.


Lemma viable_business_true (net daily : Q) :
  viable_business (business_viability net daily) = true
  <-> viability_text (business_viability net daily) = Viable.
Proof.
  unfold business_viability.
  destruct (Py.gt0 net && Py.gt0 daily); [| cbn; split; discriminate].
  destruct (Py.ge net daily); cbn; split; congruence.
Qed.


(** ** The scenario of the default form values *)

(** C3.  For Mill 2kW (rated power 2.0 kW), AC, 4 h runtime, 4 sun hours,
    80 % efficiency and 1 battery hour, the calculation yields 8 kWh
    required per day, 10 kWh to produce per day, 5 panels, a 2.5 kWp system
    and a 2.5 kWh battery. *)
Theorem scenario_sizing :
  exists a c,
    lookup scenario = Py.Ok a /\
    power a == 2 /\
    calculations a scenario = Py.Ok c /\
    energy_required_per_day c == 8 /\
    energy_production c == 10 /\
    panels_required c = 5%Z /\
    recommended_solar_size c == 25 # 10 /\
    battery_capacity c == 25 # 10.
Proof.
  eexists. eexists.
  split; [vm_compute; reflexivity |].
  split; [reflexivity |].
  split; [vm_compute; reflexivity |].
  cbn [energy_required_per_day energy_production panels_required
       recommended_solar_size battery_capacity].
  repeat split.
Qed.

(** ** The appliance catalogue *)

Lemma power_map_keys (s : string) (v : Q) :
  power_map !! s = Some v -> s = "Mill 2kW" \/ s = "Mill 3kW".
Proof.
  unfold power_map. intros H.
  apply lookup_insert_Some in H as [[<- _] | [_ H]]; [now left |].
  apply lookup_singleton_Some in H as [<- _]. now right.
Qed.

Lemma lookup_catalogue (i : Form) (a : Appliance) :
  lookup i = Py.Ok a ->
  (selected_appliance i = "Mill 2kW" /\ a = mill_2kw) \/
  (selected_appliance i = "Mill 3kW" /\ a = mill_3kw).
Proof.
  unfold lookup, Py.getitem. intros H.
  destruct (power_map !! selected_appliance i) as [v |] eqn:E;
    [| discriminate].
  destruct (power_map_keys _ _ E) as [Hs | Hs]; rewrite Hs in E, H;
    vm_compute in E; injection E as <-;
    vm_compute in H; injection H as <-; [left | right]; now split.
Qed.

Lemma lookup_power_pos (i : Form) (a : Appliance) :
  lookup i = Py.Ok a -> 0 < power a.
Proof.
  intros H. destruct (lookup_catalogue _ _ H) as [[_ ->] | [_ ->]];
    reflexivity.
Qed.

(** ** Sizing *)

(** The ceiling of a quotient by a positive number is the least integer
    whose product with the divisor reaches the dividend. *)
Lemma ceil_div_reaches (e d : Q) :
  0 < d -> e <= inject_Z (Py.ceil (e / d)) * d.
Proof.
  intros Hd. unfold Py.ceil.
  assert (Hne : ~ d == 0) by (intros E; rewrite E in Hd; discriminate).
  rewrite <- (Qmult_div_r e d Hne) at 1.
  rewrite (Qmult_comm d). apply Qmult_le_r; [assumption |].
  apply Qle_ceiling.
Qed.

Lemma ceil_div_least (e d : Q) (n : Z) :
  0 < d -> e <= inject_Z n * d -> (Py.ceil (e / d) <= n)%Z.
Proof.
  intros Hd Hn. unfold Py.ceil.
  rewrite <- (Qceiling_Z n). apply Qceiling_resp_le.
  apply Qle_shift_div_r; assumption.
Qed.

Lemma efficiency_divisor_zero (i : Form) :
  inject_Z (system_efficiency i) / 100 == 0 <-> system_efficiency i = 0%Z.
Proof.
  unfold Qeq, Qdiv, Qmult, Qinv, inject_Z. cbn. lia.
Qed.

Lemma panel_divisor_zero (i : Form) :
  panel_wattage_kw * sun_hours i == 0 <-> sun_hours i == 0.
Proof.
  unfold panel_wattage_kw. split; intros H.
  - destruct (Qmult_integral _ _ H) as [E | E]; [discriminate | assumption].
  - rewrite H. reflexivity.
Qed.

Lemma calculations_inv (a : Appliance) (i : Form) (c : Calculations) :
  calculations a i = Py.Ok c ->
  ~ power a == 0 /\ system_efficiency i <> 0%Z /\ ~ sun_hours i == 0 /\
  calculations_eqs a i c.
Proof.
  unfold calculations. intros H.
  bind_inv H. apply div_inv in E as [Hp ->].
  bind_inv H. apply div_inv in E as [He ->].
  bind_inv H. apply div_inv in E as [Hs ->].
  bind_inv H. apply div_inv in E as [Hs' ->].
  injection H as <-.
  rewrite efficiency_divisor_zero in He.
  repeat split; try assumption.
Qed.

Lemma calculations_returns (a : Appliance) (i : Form) :
  ~ power a == 0 -> system_efficiency i <> 0%Z -> ~ sun_hours i == 0 ->
  exists c, calculations a i = Py.Ok c /\ calculations_eqs a i c.
Proof.
  intros Hp He Hs.
  apply (fun H => proj2 (not_iff_compat (efficiency_divisor_zero i)) H) in He.
  assert (Hs' := proj2 (not_iff_compat (panel_divisor_zero i)) Hs).
  unfold calculations. do 4 div_step.
  eexists. split; [reflexivity |]. split; reflexivity.
Qed.

Section Sizing.

(** A form with a catalogue appliance, positive sun hours and a positive
    system efficiency. *)
Variables (i : Form) (a : Appliance).
Hypothesis catalogued : lookup i = Py.Ok a.
Hypothesis sunny : 0 < sun_hours i.
Hypothesis efficient : (0 < system_efficiency i)%Z.

Lemma sizing_returns :
  exists c, calculations a i = Py.Ok c /\ calculations_eqs a i c.
Proof using catalogued sunny efficient.
  apply calculations_returns.
  - intros E. generalize (lookup_power_pos i a catalogued).
    rewrite E. discriminate.
  - lia.
  - intros E. generalize sunny. rewrite E. discriminate.
Qed.

(** C4, amended.  In exact (rational) arithmetic on the values of the form:
    for every form with a catalogue appliance, positive sun hours and
    positive system efficiency, the sizing block returns, and
    [panels_required] is the smallest integer [n] with
    [n * panel_wattage_kw * sun_hours >= energy_production], where
    [panel_wattage_kw] is 0.5.  The program takes the ceiling of a quotient
    rounded to binary64, which can be one panel short of this, as the
    evaluation at the end of the file shows. *)
Theorem panels_required_least :
  exists c,
    calculations a i = Py.Ok c /\
    panel_wattage_kw == 0.5 /\
    energy_production c
      <= inject_Z (panels_required c) * panel_wattage_kw * sun_hours i /\
    forall n : Z,
      energy_production c <= inject_Z n * panel_wattage_kw * sun_hours i ->
      (panels_required c <= n)%Z.
Proof using catalogued sunny efficient.
  destruct sizing_returns as (c & Hc & Heqs).
  exists c. split; [assumption |]. split; [reflexivity |].
  assert (Hd : 0 < panel_wattage_kw * sun_hours i).
  { apply Qmult_lt_0_compat; [reflexivity | assumption]. }
  rewrite (eq_panels_required a i c Heqs). split.
  - rewrite <- Qmult_assoc. apply ceil_div_reaches. assumption.
  - intros n Hn. rewrite <- Qmult_assoc in Hn.
    apply ceil_div_least; assumption.
Qed.

(** C5, amended.  In exact (rational) arithmetic on the values of the form:
    for every form with a catalogue appliance, positive sun hours and
    positive system efficiency, the sizing block returns,
    [recommended_solar_size] is an integer multiple of 0.5, and
    [recommended_solar_size * sun_hours >= energy_production].  The program
    takes the ceiling of a quotient rounded to binary64, which can be half a
    kWp short of this, as the evaluation at the end of the file shows. *)
Theorem recommended_solar_size_half_steps :
  exists c,
    calculations a i = Py.Ok c /\
    (exists k : Z, recommended_solar_size c == inject_Z k * 0.5) /\
    energy_production c <= recommended_solar_size c * sun_hours i.
Proof using catalogued sunny efficient.
  destruct sizing_returns as (c & Hc & Heqs).
  exists c. split; [assumption |].
  rewrite (eq_recommended_solar_size a i c Heqs). split.
  - eexists. unfold Qdiv. apply Qmult_comp; reflexivity.
  - assert (Hne : ~ sun_hours i == 0)
      by (intros E; generalize sunny; rewrite E; discriminate).
    set (x := energy_production c / sun_hours i).
    assert (Hx : energy_production c == x * sun_hours i).
    { unfold x. rewrite Qmult_comm, Qmult_div_r by assumption. reflexivity. }
    rewrite Hx at 1. apply Qmult_le_r; [assumption |].
    apply Qle_shift_div_l; [reflexivity |].
    apply Qle_ceiling.
Qed.

End Sizing.

Lemma panels_required_least_witness :
  lookup scenario = Py.Ok mill_2kw /\
  exists c,
    calculations mill_2kw scenario = Py.Ok c /\
    panel_wattage_kw == 0.5 /\
    energy_production c
      <= inject_Z (panels_required c) * panel_wattage_kw * sun_hours scenario /\
    forall n : Z,
      energy_production c
        <= inject_Z n * panel_wattage_kw * sun_hours scenario ->
      (panels_required c <= n)%Z.
Proof.
  split; [vm_compute; reflexivity |].
  apply (panels_required_least scenario mill_2kw);
    [vm_compute; reflexivity | reflexivity | reflexivity].
Defined.

Lemma recommended_solar_size_half_steps_witness :
  lookup scenario = Py.Ok mill_2kw /\
  exists c,
    calculations mill_2kw scenario = Py.Ok c /\
    (exists k : Z, recommended_solar_size c == inject_Z k * 0.5) /\
    energy_production c <= recommended_solar_size c * sun_hours scenario.
Proof.
  split; [vm_compute; reflexivity |].
  apply (recommended_solar_size_half_steps scenario mill_2kw);
    [vm_compute; reflexivity | reflexivity | reflexivity].
Defined.

(** ** The loan *)

Lemma inject_Z_zero (n : Z) : inject_Z n == 0 <-> n = 0%Z.
Proof. unfold Qeq, inject_Z. cbn. lia. Qed.

Lemma one_plus_rate_gt_1 (r : Q) : 0 < r -> 1 < 1 + r.
Proof. intros H. lra. Qed.

(** The discount factor [(1 + r) ** (-n)] lies strictly between 0 and 1 for
    a positive rate and a positive number of months. *)
Lemma discount_lt_1 (r : Q) (n : Z) :
  0 < r -> (1 <= n)%Z -> 0 < (1 + r) ^ (- n) /\ (1 + r) ^ (- n) < 1.
Proof.
  intros Hr Hn.
  assert (H1 : 1 < (1 + r) ^ n)
    by (apply Qpower_1_lt; [apply one_plus_rate_gt_1; assumption | lia]).
  assert (H0 : 0 < (1 + r) ^ n) by lra.
  rewrite Qpower_opp. split.
  - apply Qinv_lt_0_compat. assumption.
  - change (/ (1 + r) ^ n < / 1).
    apply (proj1 (Qinv_lt_contravar 1 ((1 + r) ^ n) eq_refl H0)).
    exact H1.
Qed.

(** For a negative number of months it exceeds 1. *)
Lemma discount_gt_1 (r : Q) (n : Z) :
  0 < r -> (n <= -1)%Z -> 1 < (1 + r) ^ (- n).
Proof.
  intros Hr Hn.
  apply Qpower_1_lt; [apply one_plus_rate_gt_1; assumption | lia].
Qed.

Lemma pow_base_returns (r : Q) (n : Z) :
  0 < r -> Py.pow (1 + r) (- n) = Py.Ok ((1 + r) ^ (- n)).
Proof.
  intros Hr. apply pow_returns. intros E.
  apply one_plus_rate_gt_1 in Hr. rewrite E in Hr. discriminate.
Qed.

Lemma monthly_repayment_simple (principal : Q) (n : Z) (r : Q) :
  ~ 0 < r ->
  monthly_repayment principal n r = Py.div principal (inject_Z n).
Proof.
  intros Hr. unfold monthly_repayment.
  destruct (Py.gt0 r) eqn:E; [| reflexivity].
  apply gt0_true in E. contradiction.
Qed.

Lemma monthly_repayment_amortizing (principal : Q) (n : Z) (r : Q) :
  0 < r ->
  monthly_repayment principal n r =
  Py.div (principal * r) (1 - (1 + r) ^ (- n)).
Proof.
  intros Hr. unfold monthly_repayment.
  rewrite (proj2 (gt0_true r) Hr), pow_base_returns by assumption.
  reflexivity.
Qed.

Lemma monthly_repayment_returns (principal : Q) (n : Z) (r : Q) :
  n <> 0%Z -> Py.returns (monthly_repayment principal n r).
Proof.
  intros Hn. destruct (Qlt_le_dec 0 r) as [Hr | Hr].
  - rewrite monthly_repayment_amortizing by assumption.
    eexists. apply div_returns.
    destruct (Z_lt_le_dec n 0) as [Hneg | Hpos].
    + assert (H := discount_gt_1 r n Hr ltac:(lia)). lra.
    + assert (H := proj2 (discount_lt_1 r n Hr ltac:(lia))). lra.
  - rewrite monthly_repayment_simple by (apply Qle_not_lt; assumption).
    eexists. apply div_returns. rewrite inject_Z_zero. assumption.
Qed.

Lemma monthly_repayment_raises (principal : Q) (r : Q) :
  monthly_repayment principal 0 r = Py.Raise Py.ZeroDivisionError.
Proof.
  destruct (Qlt_le_dec 0 r) as [Hr | Hr].
  - rewrite monthly_repayment_amortizing by assumption.
    apply div_raises. change ((1 + r) ^ (- 0)) with 1. reflexivity.
  - rewrite monthly_repayment_simple by (apply Qle_not_lt; assumption).
    apply div_raises. reflexivity.
Qed.

Lemma loan_inv (c : Calculations) (k : Costs) (i : Form) (l : Loan) :
  loan c k i = Py.Ok l -> loan_eqs c k i l.
Proof.
  unfold loan. intros H.
  bind_inv H. rename x into m.
  destruct (Py.gt0 (income_per_day c)) eqn:Hinc.
  - bind_inv H. bind_inv E0. apply div_inv in E1 as [_ ->].
    injection E0 as <-. injection H as <-.
    split; cbn; rewrite ?Hinc; try reflexivity. assumption.
  - cbn [Py.bind] in H. injection H as <-.
    split; cbn; rewrite ?Hinc; try reflexivity. assumption.
Qed.

Lemma loan_returns (c : Calculations) (k : Costs) (i : Form) (m : Q) :
  monthly_repayment (loan_principal_usd k) (loan_term_years i * 12)
    (interest_rate i / 12) = Py.Ok m ->
  exists l, loan c k i = Py.Ok l /\ monthly_repayment_usd l = m.
Proof.
  intros Hm. unfold loan. rewrite Hm. cbn [Py.bind].
  destruct (Py.gt0 (income_per_day c)) eqn:Hinc.
  - apply gt0_true in Hinc.
    rewrite div_returns by (intros E; rewrite E in Hinc; discriminate).
    cbn [Py.bind]. eexists. split; reflexivity.
  - cbn [Py.bind]. eexists. split; reflexivity.
Qed.

Lemma loan_raises (c : Calculations) (k : Costs) (i : Form) (e : Py.exception) :
  monthly_repayment (loan_principal_usd k) (loan_term_years i * 12)
    (interest_rate i / 12) = Py.Raise e ->
  loan c k i = Py.Raise e.
Proof. intros Hm. unfold loan. rewrite Hm. reflexivity. Qed.

(** C8, amended.  For every input with [months >= 1]: when [monthly_rate]
    is zero the monthly repayment is the simple division
    [loan_principal_usd / months]; whenever [monthly_rate > 0] fails the
    statement executed is that division alone, so the divisor of the
    amortizing formula is not evaluated.  In exact (rational) arithmetic
    the divisor [1 - (1 + monthly_rate) ** (-months)] is not zero when
    [monthly_rate > 0], and the loan block returns for every rate.  In
    binary64 the divisor is 0.0 when [1 + monthly_rate] rounds to 1.0, and
    the program raises, as the evaluation at the end of the file shows. *)
Theorem loan_zero_rate_safe (c : Calculations) (k : Costs) (i : Form) :
  (1 <= loan_term_years i * 12)%Z ->
  exists l,
    loan c k i = Py.Ok l /\
    months l = (loan_term_years i * 12)%Z /\
    monthly_rate l = interest_rate i / 12 /\
    (monthly_rate l == 0 ->
     monthly_repayment_usd l = loan_principal_usd k / inject_Z (months l)) /\
    (~ 0 < monthly_rate l ->
     monthly_repayment (loan_principal_usd k) (months l) (monthly_rate l) =
     Py.div (loan_principal_usd k) (inject_Z (months l))) /\
    (0 < monthly_rate l ->
     ~ 1 - (1 + monthly_rate l) ^ (- months l) == 0 /\
     monthly_repayment_usd l =
     loan_principal_usd k * monthly_rate l
     / (1 - (1 + monthly_rate l) ^ (- months l))).
Proof.
  intros Hmonths.
  destruct (monthly_repayment_returns (loan_principal_usd k)
              (loan_term_years i * 12) (interest_rate i / 12)) as [m Hm];
    [lia |].
  destruct (loan_returns c k i m Hm) as (l & Hl & Hlm).
  exists l. split; [assumption |].
  destruct (loan_inv c k i l Hl) as [Hmo Hra Hrep _ _ _ _ _].
  rewrite Hlm in Hrep. rewrite Hlm, Hmo, Hra in *. clear Hlm Hmo Hra.
  assert (Hne : ~ inject_Z (loan_term_years i * 12) == 0)
    by (rewrite inject_Z_zero; lia).
  split; [reflexivity |]. split; [reflexivity |].
  split; [| split].
  - intros H0.
    rewrite monthly_repayment_simple, div_returns in Hrep; try assumption.
    + now injection Hrep as <-.
    + rewrite H0. discriminate.
  - apply monthly_repayment_simple.
  - intros Hr.
    assert (Hd := proj2 (discount_lt_1 _ _ Hr Hmonths)).
    assert (Hdiv : ~ 1 - (1 + interest_rate i / 12)
                         ^ (- (loan_term_years i * 12)) == 0) by lra.
    split; [assumption |].
    rewrite monthly_repayment_amortizing, div_returns in Hrep;
      try assumption.
    now injection Hrep as <-.
Qed.

Lemma scenario_calculations_ok :
  calculations mill_2kw scenario = Py.Ok scenario_calculations.
Proof. vm_compute. reflexivity. Qed.

Lemma loan_zero_rate_safe_witness :
  (1 <= loan_term_years scenario * 12)%Z /\
  exists l,
    loan scenario_calculations scenario_costs scenario = Py.Ok l /\
    months l = (loan_term_years scenario * 12)%Z /\
    monthly_rate l = interest_rate scenario / 12 /\
    (monthly_rate l == 0 ->
     monthly_repayment_usd l =
     loan_principal_usd scenario_costs / inject_Z (months l)) /\
    (~ 0 < monthly_rate l ->
     monthly_repayment (loan_principal_usd scenario_costs) (months l)
       (monthly_rate l) =
     Py.div (loan_principal_usd scenario_costs) (inject_Z (months l))) /\
    (0 < monthly_rate l ->
     ~ 1 - (1 + monthly_rate l) ^ (- months l) == 0 /\
     monthly_repayment_usd l =
     loan_principal_usd scenario_costs * monthly_rate l
     / (1 - (1 + monthly_rate l) ^ (- months l))).
Proof.
  split; [vm_compute; discriminate |].
  apply (loan_zero_rate_safe scenario_calculations scenario_costs scenario).
  vm_compute; discriminate.
Defined.

(** C10.  A loan at zero annual interest accrues no interest: for every
    input with [interest_rate == 0] and [months >= 1] the loan block
    returns, the monthly repayment is [loan_principal_usd / months], the
    total repayment [months * (loan_principal_usd / months)] equals the
    principal, and the total interest paid is zero. *)
Theorem zero_interest_loan (c : Calculations) (k : Costs) (i : Form) :
  interest_rate i == 0 -> (1 <= loan_term_years i * 12)%Z ->
  exists l,
    loan c k i = Py.Ok l /\
    monthly_repayment_usd l = loan_principal_usd k / inject_Z (months l) /\
    total_repayment_usd l =
      inject_Z (months l) * (loan_principal_usd k / inject_Z (months l)) /\
    total_repayment_usd l == loan_principal_usd k /\
    total_interest_paid_usd l == 0.
Proof.
  intros Hrate Hmonths.
  assert (Hne : ~ inject_Z (loan_term_years i * 12) == 0)
    by (rewrite inject_Z_zero; lia).
  assert (Hr : ~ 0 < interest_rate i / 12).
  { rewrite Hrate. discriminate. }
  assert (Hm := monthly_repayment_simple (loan_principal_usd k)
                  (loan_term_years i * 12) _ Hr).
  rewrite div_returns in Hm by assumption.
  destruct (loan_returns c k i _ Hm) as (l & Hl & Hlm).
  exists l. split; [assumption |].
  destruct (loan_inv c k i l Hl) as [Hmo _ _ Htot Hint _ _ _].
  rewrite Hint, Htot, Hlm, Hmo.
  split; [reflexivity |]. split; [reflexivity |].
  assert (Hid : inject_Z (loan_term_years i * 12)
                * (loan_principal_usd k / inject_Z (loan_term_years i * 12))
                == loan_principal_usd k)
    by (apply Qmult_div_r; assumption).
  split; [assumption |]. rewrite Hid. ring.
Qed.

Lemma zero_interest_loan_witness :
  interest_rate interest_free_scenario == 0 /\
  (1 <= loan_term_years interest_free_scenario * 12)%Z /\
  exists l,
    loan scenario_calculations scenario_costs interest_free_scenario
      = Py.Ok l /\
    monthly_repayment_usd l =
      loan_principal_usd scenario_costs / inject_Z (months l) /\
    total_repayment_usd l =
      inject_Z (months l)
      * (loan_principal_usd scenario_costs / inject_Z (months l)) /\
    total_repayment_usd l == loan_principal_usd scenario_costs /\
    total_interest_paid_usd l == 0.
Proof.
  split; [reflexivity |]. split; [vm_compute; discriminate |].
  apply (zero_interest_loan scenario_calculations scenario_costs
           interest_free_scenario);
    [reflexivity | vm_compute; discriminate].
Defined.

(** ** When the calculation raises *)

Lemma div_cases (x y : Q) :
  (y == 0 /\ Py.div x y = Py.Raise Py.ZeroDivisionError) \/
  (~ y == 0 /\ Py.div x y = Py.Ok (x / y)).
Proof.
  destruct (Qeq_dec y 0) as [E | E].
  - left. split; [assumption | apply div_raises; assumption].
  - right. split; [assumption | apply div_returns; assumption].
Qed.

Lemma calculations_raises (a : Appliance) (i : Form) :
  ~ power a == 0 -> system_efficiency i = 0%Z \/ sun_hours i == 0 ->
  calculations a i = Py.Raise Py.ZeroDivisionError.
Proof.
  intros Hp Hz. unfold calculations. div_step.
  destruct (div_cases (runtime_per_day i * power a)
              (inject_Z (system_efficiency i) / 100)) as [[_ ->] | [He ->]];
    [reflexivity | cbn [Py.bind]].
  rewrite efficiency_divisor_zero in He.
  destruct Hz as [Hz | Hz]; [contradiction |].
  rewrite div_raises; [reflexivity |].
  apply panel_divisor_zero. assumption.
Qed.

Lemma costs_principal (a : Appliance) (c : Calculations) (i : Form) :
  loan_principal_usd (costs a c i)
  = total_with_import_usd (costs a c i) - deposit i.
Proof. reflexivity. Qed.

Lemma calculate_inv (rates : gmap string Q) (i : Form) (r : Results) :
  calculate rates i = Py.Ok r ->
  lookup i = Py.Ok (appliance r) /\
  rate r = Py.get rates (selected_currency i) 1 /\
  calculations (appliance r) i = Py.Ok (calc r) /\
  cost r = costs (appliance r) (calc r) i /\
  loan (calc r) (cost r) i = Py.Ok (repayment r) /\
  viability r =
  business_viability (net_income_per_day (calc r))
    (daily_repayment_usd (repayment r)).
Proof.
  unfold calculate. intros H.
  bind_inv H. bind_inv H. bind_inv H. injection H as <-. cbn.
  repeat split; assumption.
Qed.

(** C2, amended.  The calculation has no [InvalidInputError] and no input
    check of its own.  For a catalogue appliance, zero sun hours or a zero
    system efficiency stop it with Python's [ZeroDivisionError], and a loan
    of zero months makes the loan block raise [ZeroDivisionError] whatever
    the sizing and the costs.  A deposit above the installed cost is not
    rejected: the loan principal of every result is the installed cost
    minus the deposit, negative when the deposit is the larger. *)
Theorem calculate_does_not_validate
  (rates : gmap string Q) (i : Form) (a : Appliance) :
  lookup i = Py.Ok a ->
  (sun_hours i == 0 \/ system_efficiency i = 0%Z ->
   calculate rates i = Py.Raise Py.ZeroDivisionError) /\
  ((loan_term_years i * 12 = 0)%Z ->
   forall c k, loan c k i = Py.Raise Py.ZeroDivisionError) /\
  (forall r, calculate rates i = Py.Ok r ->
     loan_principal_usd (cost r) = total_with_import_usd (cost r) - deposit i
     /\ (total_with_import_usd (cost r) < deposit i ->
         loan_principal_usd (cost r) < 0)).
Proof.
  intros Ha. split; [| split].
  - intros Hz. unfold calculate. rewrite Ha. cbn [Py.bind].
    rewrite calculations_raises; [reflexivity | | tauto].
    apply nonzero_of_pos, (lookup_power_pos i a Ha).
  - intros Hm c k. apply loan_raises. rewrite Hm.
    apply monthly_repayment_raises.
  - intros r Hr. apply calculate_inv in Hr as (_ & _ & _ & -> & _).
    rewrite costs_principal. split; [reflexivity |]. intros H. lra.
Qed.

Lemma calculate_does_not_validate_witness :
  lookup no_sun_scenario = Py.Ok mill_2kw /\
  calculate ∅ no_sun_scenario = Py.Raise Py.ZeroDivisionError.
Proof.
  split; [vm_compute; reflexivity |].
  apply (calculate_does_not_validate ∅ no_sun_scenario mill_2kw);
    [vm_compute; reflexivity | left; reflexivity].
Defined.

(** C2, counterexample.  With a deposit of 10000 USD on an installed cost of
    3700 USD the calculation does not raise: it returns a result whose loan
    principal is negative. *)
Lemma deposit_above_installed_cost_returns :
  exists r,
    calculate ∅ overpaid_scenario = Py.Ok r /\
    total_with_import_usd (cost r) < deposit overpaid_scenario /\
    loan_principal_usd (cost r) < 0.
Proof.
  eexists. split; [vm_compute; reflexivity |].
  split; vm_compute; reflexivity.
Qed.

(** ** The exchange rate *)

Lemma money_cards_displayed (i : Form) (r : Results) :
  money_cards i r = map (displayed (rate r)) (usd_amounts i r).
Proof.
  unfold money_cards, usd_amounts. rewrite map_app. f_equal.
  - cbn. destruct (String.eqb (selected_system i) "AC"); reflexivity.
  - destruct (viable_business (viability r)); reflexivity.
Qed.

Lemma payback_summary_displayed (i : Form) (r : Results) (years : option Q) :
  payback_summary i r years
  = map (displayed (rate r)) (usd_payback_amounts i r years).
Proof. destruct years; reflexivity. Qed.

Lemma calculate_currency (rates : gmap string Q) (cur : string) (i : Form) :
  calculate rates (with_selected_currency cur i) =
  let* a := lookup i in
  let* c := calculations a i in
  let* l := loan c (costs a c i) i in
  Py.Ok {| appliance := a; rate := Py.get rates cur 1; calc := c;
           cost := costs a c i; repayment := l;
           viability := business_viability (net_income_per_day c)
                          (daily_repayment_usd l) |}.
Proof. reflexivity. Qed.

(** C6.  The exchange rate does not interfere with the calculation.  Two
    runs on forms that differ in nothing but the selected currency, under
    any two rate tables, either raise the same exception or return results
    that agree on the appliance values, on every sizing value, every cost,
    every loan value and the viability verdict, and on the payback; only
    [rate] differs.  The displayed amounts of the two runs (metric cards and
    payback summary) are the same list of USD amounts, each multiplied by
    the run's rate inside the rounding at display time. *)
Theorem exchange_rate_noninterference
  (rates1 rates2 : gmap string Q) (cur1 cur2 : string) (i : Form) :
  let i1 := with_selected_currency cur1 i in
  let i2 := with_selected_currency cur2 i in
  match calculate rates1 i1, calculate rates2 i2 with
  | Py.Ok r1, Py.Ok r2 =>
      appliance r1 = appliance r2 /\
      calc r1 = calc r2 /\
      cost r1 = cost r2 /\
      repayment r1 = repayment r2 /\
      viability r1 = viability r2 /\
      payback i1 r1 = payback i2 r2 /\
      rate r1 = Py.get rates1 cur1 1 /\
      rate r2 = Py.get rates2 cur2 1 /\
      forall payback_years : option Q,
      exists amounts : list (string * Q),
        money_cards i1 r1 ++ payback_summary i1 r1 payback_years
        = map (displayed (rate r1)) amounts /\
        money_cards i2 r2 ++ payback_summary i2 r2 payback_years
        = map (displayed (rate r2)) amounts
  | Py.Raise e1, Py.Raise e2 => e1 = e2
  | _, _ => False
  end.
Proof.
  cbv zeta. rewrite !calculate_currency.
  destruct (lookup i) as [e | a]; cbn [Py.bind]; [reflexivity |].
  destruct (calculations a i) as [e | c]; cbn [Py.bind]; [reflexivity |].
  destruct (loan c (costs a c i) i) as [e | l]; cbn [Py.bind];
    [reflexivity |].
  cbn [appliance calc cost repayment viability rate].
  repeat (split; [reflexivity |]).
  intros payback_years.
  eexists. rewrite !money_cards_displayed, !payback_summary_displayed.
  rewrite <- !map_app. split; reflexivity.
Qed.

(** ** Viability and income *)

(** The daily production of a catalogue appliance is not negative when the
    runtime is not. *)
Lemma production_nonneg (i : Form) (a : Appliance) (c : Calculations) :
  lookup i = Py.Ok a -> calculations_eqs a i c -> 0 <= runtime_per_day i ->
  0 <= production_per_day c.
Proof.
  intros Ha Hc Hrun.
  rewrite (eq_production_per_day a i c Hc), (eq_specific_efficiency a i c Hc),
    (eq_energy_required a i c Hc).
  assert (Hp := lookup_power_pos i a Ha).
  assert (Hs : 0 <= inject_Z (processing_speed a) / power a).
  { apply Qle_shift_div_l; [assumption |]. rewrite Qmult_0_l.
    destruct (lookup_catalogue i a Ha) as [[_ ->] | [_ ->]]; discriminate. }
  apply Qmult_le_0_compat; [assumption |].
  apply Qmult_le_0_compat; [assumption | apply Qlt_le_weak; assumption].
Qed.

(** The income per kg reaches the costs and the loan through nothing. *)
Lemma costs_income_independent
  (a : Appliance) (i : Form) (x : Q) (c c' : Calculations) :
  calculations_eqs a i c -> calculations_eqs a (with_income_per_kg x i) c' ->
  costs a c' (with_income_per_kg x i) = costs a c i.
Proof.
  intros Hc Hc'.
  assert (Hep : energy_production c' = energy_production c).
  { rewrite (eq_energy_production _ _ _ Hc), (eq_energy_production _ _ _ Hc'),
      (eq_energy_required _ _ _ Hc), (eq_energy_required _ _ _ Hc').
    reflexivity. }
  assert (Hsize : recommended_solar_size c' = recommended_solar_size c).
  { rewrite (eq_recommended_solar_size _ _ _ Hc),
      (eq_recommended_solar_size _ _ _ Hc'), Hep. reflexivity. }
  assert (Hpanels : solar_panel_cost c' = solar_panel_cost c).
  { rewrite (eq_solar_panel_cost _ _ _ Hc), (eq_solar_panel_cost _ _ _ Hc'),
      (eq_panels_required _ _ _ Hc), (eq_panels_required _ _ _ Hc'), Hep.
    reflexivity. }
  assert (Hbat : battery_capacity c' = battery_capacity c).
  { rewrite (eq_battery_capacity _ _ _ Hc), (eq_battery_capacity _ _ _ Hc'),
      Hsize. reflexivity. }
  unfold costs. rewrite Hsize, Hpanels, Hbat. reflexivity.
Qed.

Lemma loan_daily_repayment (c : Calculations) (k : Costs) (i : Form) (l : Loan) :
  loan_eqs c k i l ->
  daily_repayment_usd l = monthly_repayment_usd l * 12 / 365.
Proof.
  intros Hl.
  rewrite (eq_daily_repayment _ _ _ _ Hl), (eq_annual_repayment _ _ _ _ Hl).
  reflexivity.
Qed.

(** C7.  Viability is monotone in the income per kg.  For every form with a
    runtime that is not negative (the widget admits 1 hour and more) whose
    calculation returns a Viable verdict, the calculation on the same form
    with a larger or equal income per kg, everything else unchanged, returns
    too and its verdict is Viable, hence not NotViable. *)
Theorem viability_monotone_in_income
  (rates : gmap string Q) (i : Form) (x : Q) (r : Results) :
  0 <= runtime_per_day i -> income_per_kg i <= x ->
  calculate rates i = Py.Ok r ->
  viability_text (viability r) = Viable ->
  exists r',
    calculate rates (with_income_per_kg x i) = Py.Ok r' /\
    daily_repayment_usd (repayment r') = daily_repayment_usd (repayment r) /\
    viability_text (viability r') = Viable /\
    viability_text (viability r') <> NotViable.
Proof.
  intros Hrun Hx Hr Hv.
  destruct (calculate_inv rates i r Hr) as (Ha & _ & Hc & Hk & Hl & Hvi).
  destruct (calculations_inv _ _ _ Hc) as (Hp & He & Hs & Hceqs).
  destruct (calculations_returns (appliance r) (with_income_per_kg x i)
              Hp He Hs) as (c' & Hc' & Hceqs').
  assert (Hk' : costs (appliance r) c' (with_income_per_kg x i) = cost r)
    by (rewrite Hk; apply costs_income_independent; assumption).
  assert (Hleqs := loan_inv _ _ _ _ Hl).
  destruct (loan_returns c' (cost r) (with_income_per_kg x i)
              (monthly_repayment_usd (repayment r))) as (l' & Hl' & Hm').
  { rewrite <- (eq_monthly_repayment _ _ _ _ Hleqs),
      (eq_months _ _ _ _ Hleqs), (eq_monthly_rate _ _ _ _ Hleqs).
    reflexivity. }
  assert (Hd' : daily_repayment_usd l' = daily_repayment_usd (repayment r)).
  { rewrite (loan_daily_repayment _ _ _ _ (loan_inv _ _ _ _ Hl')),
      (loan_daily_repayment _ _ _ _ Hleqs), Hm'. reflexivity. }
  eexists. split.
  { unfold calculate.
    change (lookup (with_income_per_kg x i)) with (lookup i).
    rewrite Ha. cbn [Py.bind]. rewrite Hc'. cbn [Py.bind].
    rewrite Hk', Hl'. cbn [Py.bind]. reflexivity. }
  cbn [repayment viability]. split; [assumption |].
  assert (Hviable :
    viability_text (business_viability (net_income_per_day c')
                      (daily_repayment_usd l')) = Viable).
  { rewrite Hvi in Hv. apply viability_text_viable in Hv as (Hn & Hd & Hnd).
    apply viability_text_viable. rewrite Hd'.
    assert (Hprod : production_per_day c' = production_per_day (calc r)).
    { rewrite (eq_production_per_day _ _ _ Hceqs),
        (eq_production_per_day _ _ _ Hceqs'),
        (eq_specific_efficiency _ _ _ Hceqs),
        (eq_specific_efficiency _ _ _ Hceqs'),
        (eq_energy_required _ _ _ Hceqs), (eq_energy_required _ _ _ Hceqs').
      reflexivity. }
    assert (Hnet : net_income_per_day (calc r) <= net_income_per_day c').
    { rewrite (eq_net_income_per_day _ _ _ Hceqs),
        (eq_net_income_per_day _ _ _ Hceqs'),
        (eq_income_per_day _ _ _ Hceqs), (eq_income_per_day _ _ _ Hceqs'),
        Hprod.
      change (income_per_kg (with_income_per_kg x i)) with x.
      change (daily_operating_cost (with_income_per_kg x i))
        with (daily_operating_cost i).
      assert (H0 := production_nonneg i _ _ Ha Hceqs Hrun).
      assert (income_per_kg i * production_per_day (calc r)
              <= x * production_per_day (calc r))
        by (apply Qmult_le_compat_r; assumption).
      lra. }
    repeat split; lra. }
  split; [assumption |]. rewrite Hviable. discriminate.
Qed.

Lemma viability_monotone_in_income_witness :
  0 <= runtime_per_day scenario /\
  income_per_kg scenario <= 1 /\
  exists r,
    calculate ∅ scenario = Py.Ok r /\
    viability_text (viability r) = Viable /\
    exists r',
      calculate ∅ (with_income_per_kg 1 scenario) = Py.Ok r' /\
      daily_repayment_usd (repayment r')
      = daily_repayment_usd (repayment r) /\
      viability_text (viability r') = Viable /\
      viability_text (viability r') <> NotViable.
Proof.
  split; [discriminate |]. split; [discriminate |].
  destruct (calculate ∅ scenario) as [e | r] eqn:Hr;
    [vm_compute in Hr; discriminate Hr |].
  assert (Hv : viability_text (viability r) = Viable).
  { vm_compute in Hr. injection Hr as <-. reflexivity. }
  exists r. split; [reflexivity |]. split; [exact Hv |].
  exact (viability_monotone_in_income ∅ scenario 1 r
           ltac:(discriminate) ltac:(discriminate) Hr Hv).
Defined.

(** ** Payback *)

(** A positive monthly repayment over a positive number of months means a
    positive principal. *)
Lemma monthly_repayment_pos_principal (principal : Q) (n : Z) (r m : Q) :
  (1 <= n)%Z -> monthly_repayment principal n r = Py.Ok m -> 0 < m ->
  0 < principal.
Proof.
  intros Hn Hm Hpos.
  destruct (Qlt_le_dec 0 r) as [Hr | Hr].
  - rewrite monthly_repayment_amortizing in Hm by assumption.
    apply div_inv in Hm as [Hne ->].
    assert (Hd := proj2 (discount_lt_1 r n Hr Hn)).
    set (d := 1 - (1 + r) ^ (- n)) in *.
    assert (Hd0 : 0 < d) by (unfold d; lra).
    assert (Hpr : 0 < principal * r).
    { rewrite <- (Qmult_div_r (principal * r) d) by assumption.
      apply Qmult_lt_0_compat; assumption. }
    destruct (Qlt_le_dec 0 principal) as [H | H]; [assumption | exfalso].
    assert (principal * r <= 0 * r)
      by (apply Qmult_le_compat_r; [assumption | lra]).
    lra.
  - rewrite monthly_repayment_simple in Hm by (apply Qle_not_lt; assumption).
    apply div_inv in Hm as [Hne ->].
    assert (Hn0 : 0 < inject_Z n).
    { change 0 with (inject_Z 0). rewrite <- Zlt_Qlt. lia. }
    rewrite <- (Qmult_div_r principal (inject_Z n)) by assumption.
    apply Qmult_lt_0_compat; assumption.
Qed.

(** C9, amended.  Whenever the verdict is Viable, the daily repayment and
    the net income per day are positive.  Hence, for at least one operating
    day per year, the payback denominator
    [net_income_per_day * operating_days] is positive, the extra guard
    [annual_repayment_usd > 0] of the payback block holds, so that the guard
    as a whole is true, and the block returns the payback years
    [total_with_import_usd / (net_income_per_day * operating_days)] without
    raising.  In exact (rational) arithmetic the payback is strictly
    positive for the loan terms and deposits the form admits (a term of at
    least one year, a deposit that is not negative).  In binary64 it can be
    0.0, when the net income overflows to infinity, as the evaluation at
    the end of the file shows. *)
Theorem viable_payback_defined
  (rates : gmap string Q) (i : Form) (r : Results) :
  calculate rates i = Py.Ok r ->
  viability_text (viability r) = Viable ->
  (1 <= operating_days i)%Z ->
  0 < daily_repayment_usd (repayment r) /\
  0 < net_income_per_day (calc r) /\
  0 < net_income_per_day (calc r) * inject_Z (operating_days i) /\
  0 < annual_repayment_usd (repayment r) /\
  viable_business (viability r) && Py.gt0 (annual_repayment_usd (repayment r))
  = true /\
  exists payback_years,
    payback i r = Py.Ok (Some payback_years) /\
    payback_years =
      total_with_import_usd (cost r)
      / (net_income_per_day (calc r) * inject_Z (operating_days i)) /\
    ((1 <= loan_term_years i)%Z -> 0 <= deposit i -> 0 < payback_years).
Proof.
  intros Hr Hv Hdays.
  destruct (calculate_inv rates i r Hr) as (Ha & _ & Hc & Hk & Hl & Hvi).
  assert (Hleqs := loan_inv _ _ _ _ Hl).
  assert (Hvb : viable_business (viability r) = true)
    by (rewrite Hvi in *; apply viable_business_true; assumption).
  rewrite Hvi in Hv. apply viability_text_viable in Hv as (Hn & Hd & Hnd).
  assert (Hann : 0 < annual_repayment_usd (repayment r)).
  { rewrite (eq_daily_repayment _ _ _ _ Hleqs) in Hd.
    set (y := annual_repayment_usd (repayment r)) in *.
    assert (y == y / 365 * 365) by (field; discriminate). lra. }
  assert (Hmon : 0 < monthly_repayment_usd (repayment r)).
  { rewrite (eq_annual_repayment _ _ _ _ Hleqs) in Hann. lra. }
  assert (Hdays0 : 0 < inject_Z (operating_days i)).
  { change 0 with (inject_Z 0). rewrite <- Zlt_Qlt. lia. }
  assert (Hden : 0 < net_income_per_day (calc r)
                     * inject_Z (operating_days i))
    by (apply Qmult_lt_0_compat; assumption).
  assert (Hgt : Py.gt0 (annual_repayment_usd (repayment r)) = true)
    by (apply gt0_true; assumption).
  split; [assumption |]. split; [assumption |]. split; [assumption |].
  split; [assumption |]. split; [rewrite Hvb, Hgt; reflexivity |].
  eexists. split; [| split; [reflexivity |]].
  - unfold payback. rewrite Hvb, Hgt. cbn [andb].
    rewrite div_returns; [reflexivity |].
    intros E. rewrite E in Hden. discriminate.
  - intros Hterm Hdep.
    assert (Hprin : 0 < loan_principal_usd (cost r)).
    { apply (monthly_repayment_pos_principal _ (months (repayment r))
               (monthly_rate (repayment r))
               (monthly_repayment_usd (repayment r))).
      - rewrite (eq_months _ _ _ _ Hleqs). lia.
      - apply (eq_monthly_repayment _ _ _ _ Hleqs).
      - assumption. }
    assert (Htot : 0 < total_with_import_usd (cost r)).
    { rewrite Hk in Hprin |- *. rewrite costs_principal in Hprin. lra. }
    apply Qlt_shift_div_l; [assumption |]. rewrite Qmult_0_l. assumption.
Qed.

Lemma viable_payback_defined_witness :
  (1 <= operating_days scenario)%Z /\
  exists r,
    calculate ∅ scenario = Py.Ok r /\
    viability_text (viability r) = Viable /\
    0 < daily_repayment_usd (repayment r) /\
    0 < net_income_per_day (calc r) /\
    0 < net_income_per_day (calc r) * inject_Z (operating_days scenario) /\
    0 < annual_repayment_usd (repayment r) /\
    viable_business (viability r)
    && Py.gt0 (annual_repayment_usd (repayment r)) = true /\
    exists payback_years,
      payback scenario r = Py.Ok (Some payback_years) /\
      payback_years =
        total_with_import_usd (cost r)
        / (net_income_per_day (calc r)
           * inject_Z (operating_days scenario)) /\
      ((1 <= loan_term_years scenario)%Z -> 0 <= deposit scenario ->
       0 < payback_years).
Proof.
  split; [discriminate |].
  destruct (calculate ∅ scenario) as [e | r] eqn:Hr;
    [vm_compute in Hr; discriminate Hr |].
  assert (Hv : viability_text (viability r) = Viable).
  { vm_compute in Hr. injection Hr as <-. reflexivity. }
  exists r. split; [reflexivity |]. split; [exact Hv |].
  exact (viable_payback_defined ∅ scenario r Hr Hv ltac:(discriminate)).
Defined.

(** ** The page *)

Lemma on_calculate_unselected (rates : gmap string Q) (i : Form) :
  selected_appliance i = "Choose one" \/ selected_system i = "Choose one" ->
  on_calculate rates i = Py.Ok SelectionError.
Proof.
  unfold on_calculate. intros [-> | ->]; cbn [String.eqb negb andb].
  - reflexivity.
  - rewrite andb_false_r. reflexivity.
Qed.

(** The report of the default scenario in USD: the amounts on the cards and
    the payback years, as reduced fractions. *)
Example scenario_report :
  match on_calculate ∅ scenario with
  | Py.Ok (Report r cards payback_years) =>
      viability_text (viability r) = Viable /\
      map (fun card => (fst card, Qred (snd card))) cards =
      [ ("Daily Net Income", 43 # 10);
        ("Appliance Cost", 600 # 1);
        ("Solar Panel Cost", 250 # 1);
        ("Inverter Cost", 250 # 1);
        ("Battery Cost", 750 # 1);
        ("FOB Subtotal", 1850 # 1);
        ("Installed Cost", 3700 # 1);
        ("Loan Principal", 3700 # 1);
        ("Monthly Payment", 1283 # 10);
        ("Total Interest", 4587 # 5);
        ("Daily Gross Income", 143 # 10);
        ("Daily Net Income", 43 # 10);
        ("Daily Loan Repayment", 21 # 5);
        ("Daily Surplus", 1 # 10);
        ("Total System Cost", 3700 # 1);
        ("Annual Net Profit", 5357 # 5) ] /\
      option_map Qred payback_years = Some (259 # 75)
  | _ => False
  end.
Proof. vm_compute. repeat split. Qed.

(** * Further properties of the calculation *)

(** ** Sizing *)

(** X1.  The recommended system size is the combined rating of the required
    panels: [recommended_solar_size == panels_required * panel_wattage_kw]
    whenever the sizing block returns. *)
Theorem recommended_size_is_panel_rating
  (a : Appliance) (i : Form) (c : Calculations) :
  calculations a i = Py.Ok c ->
  recommended_solar_size c == inject_Z (panels_required c) * panel_wattage_kw.
Proof.
  intros Hc. destruct (calculations_inv a i c Hc) as (_ & _ & Hs & Heqs).
  rewrite (eq_recommended_solar_size a i c Heqs),
    (eq_panels_required a i c Heqs).
  unfold Py.ceil, panel_wattage_kw.
  assert (Hq : energy_production c / ((5 # 10) * sun_hours i)
               == energy_production c / sun_hours i * 2)
    by (field; assumption).
  rewrite Hq. field.
Qed.

Lemma recommended_size_is_panel_rating_witness :
  calculations mill_2kw scenario = Py.Ok scenario_calculations /\
  recommended_solar_size scenario_calculations
  == inject_Z (panels_required scenario_calculations) * panel_wattage_kw.
Proof.
  split; [vm_compute; reflexivity |].
  apply (recommended_size_is_panel_rating mill_2kw scenario).
  vm_compute; reflexivity.
Defined.

(** X2.  In exact (rational) arithmetic the daily production does not
    depend on the rated power: it is the processing speed times the runtime,
    and the daily income is the hourly income times the runtime.  (In
    binary64 the two sides can differ in the last bit.) *)
Theorem production_is_speed_times_runtime
  (a : Appliance) (i : Form) (c : Calculations) :
  calculations a i = Py.Ok c ->
  production_per_day c == inject_Z (processing_speed a) * runtime_per_day i /\
  income_per_day c == income_per_hour c * runtime_per_day i.
Proof.
  intros Hc. destruct (calculations_inv a i c Hc) as (Hp & _ & _ & Heqs).
  assert (Hprod : production_per_day c
                  == inject_Z (processing_speed a) * runtime_per_day i).
  { rewrite (eq_production_per_day a i c Heqs),
      (eq_specific_efficiency a i c Heqs), (eq_energy_required a i c Heqs).
    field. assumption. }
  split; [assumption |].
  rewrite (eq_income_per_day a i c Heqs), (eq_income_per_hour a i c Heqs),
    Hprod.
  ring.
Qed.

Lemma production_is_speed_times_runtime_witness :
  calculations mill_2kw scenario = Py.Ok scenario_calculations /\
  production_per_day scenario_calculations
  == inject_Z (processing_speed mill_2kw) * runtime_per_day scenario /\
  income_per_day scenario_calculations
  == income_per_hour scenario_calculations * runtime_per_day scenario.
Proof.
  split; [vm_compute; reflexivity |].
  apply (production_is_speed_times_runtime mill_2kw scenario).
  vm_compute; reflexivity.
Defined.

Lemma efficiency_fraction_bounds (i : Form) :
  (1 <= system_efficiency i <= 100)%Z ->
  0 < inject_Z (system_efficiency i) / 100 /\
  inject_Z (system_efficiency i) / 100 <= 1.
Proof.
  intros [Hlo Hhi]. unfold Qlt, Qle, Qdiv, Qmult, Qinv, inject_Z. cbn. lia.
Qed.

(** X3.  Losses never create energy: for an efficiency between 1 and 100
    per cent and a runtime that is not negative, the energy to produce per
    day is at least the energy required per day, with equality at 100 per
    cent. *)
Theorem energy_production_covers_requirement
  (a : Appliance) (i : Form) (c : Calculations) :
  lookup i = Py.Ok a -> calculations a i = Py.Ok c ->
  0 <= runtime_per_day i -> (1 <= system_efficiency i <= 100)%Z ->
  0 <= energy_required_per_day c /\
  energy_required_per_day c <= energy_production c /\
  (system_efficiency i = 100%Z ->
   energy_production c == energy_required_per_day c).
Proof.
  intros Ha Hc Hrun Heff.
  destruct (calculations_inv a i c Hc) as (_ & _ & _ & Heqs).
  destruct (efficiency_fraction_bounds i Heff) as [Hd0 Hd1].
  assert (Hreq : 0 <= energy_required_per_day c).
  { rewrite (eq_energy_required a i c Heqs).
    apply Qmult_le_0_compat;
      [assumption | apply Qlt_le_weak, (lookup_power_pos i a Ha)]. }
  split; [assumption |].
  rewrite (eq_energy_production a i c Heqs). split.
  - apply Qle_shift_div_l; [assumption |].
    rewrite <- (Qmult_1_r (energy_required_per_day c)) at 2.
    rewrite !(Qmult_comm (energy_required_per_day c)).
    apply Qmult_le_compat_r; assumption.
  - intros ->. field.
Qed.

Lemma energy_production_covers_requirement_witness :
  lookup scenario = Py.Ok mill_2kw /\
  calculations mill_2kw scenario = Py.Ok scenario_calculations /\
  0 <= energy_required_per_day scenario_calculations /\
  energy_required_per_day scenario_calculations
  <= energy_production scenario_calculations /\
  (system_efficiency scenario = 100%Z ->
   energy_production scenario_calculations
   == energy_required_per_day scenario_calculations).
Proof.
  split; [vm_compute; reflexivity |]. split; [vm_compute; reflexivity |].
  apply (energy_production_covers_requirement mill_2kw scenario);
    [vm_compute; reflexivity | vm_compute; reflexivity | discriminate
    | split; discriminate].
Defined.

(** X4.  Running the appliance longer never needs fewer panels or a smaller
    system: between two forms with the same appliance, sun hours and
    efficiency (both positive), the one with the longer runtime has at
    least the energy to produce, the panels and the recommended size of the
    other. *)
Theorem sizing_monotone_in_runtime
  (a : Appliance) (i1 i2 : Form) (c1 c2 : Calculations) :
  lookup i1 = Py.Ok a ->
  calculations a i1 = Py.Ok c1 -> calculations a i2 = Py.Ok c2 ->
  sun_hours i2 = sun_hours i1 ->
  system_efficiency i2 = system_efficiency i1 ->
  0 < sun_hours i1 -> (0 < system_efficiency i1)%Z ->
  runtime_per_day i1 <= runtime_per_day i2 ->
  energy_production c1 <= energy_production c2 /\
  (panels_required c1 <= panels_required c2)%Z /\
  recommended_solar_size c1 <= recommended_solar_size c2.
Proof.
  intros Ha Hc1 Hc2 Hsun Heff Hs He Hrun.
  destruct (calculations_inv a i1 c1 Hc1) as (_ & _ & _ & Heqs1).
  destruct (calculations_inv a i2 c2 Hc2) as (_ & _ & _ & Heqs2).
  assert (Hp := lookup_power_pos i1 a Ha).
  assert (Hd : 0 < inject_Z (system_efficiency i1) / 100).
  { unfold Qlt, Qdiv, Qmult, Qinv, inject_Z. cbn. lia. }
  assert (Hprod : energy_production c1 <= energy_production c2).
  { rewrite (eq_energy_production a i1 c1 Heqs1),
      (eq_energy_production a i2 c2 Heqs2),
      (eq_energy_required a i1 c1 Heqs1),
      (eq_energy_required a i2 c2 Heqs2), Heff.
    unfold Qdiv at 1 3. apply Qmult_le_compat_r.
    - apply Qmult_le_compat_r; [assumption | apply Qlt_le_weak; assumption].
    - apply Qlt_le_weak, Qinv_lt_0_compat. assumption. }
  split; [assumption |].
  assert (Hpanel : 0 < panel_wattage_kw * sun_hours i1)
    by (apply Qmult_lt_0_compat; [reflexivity | assumption]).
  split.
  - rewrite (eq_panels_required a i1 c1 Heqs1),
      (eq_panels_required a i2 c2 Heqs2), Hsun.
    unfold Py.ceil. apply Qceiling_resp_le.
    unfold Qdiv. apply Qmult_le_compat_r; [assumption |].
    apply Qlt_le_weak, Qinv_lt_0_compat. assumption.
  - rewrite (eq_recommended_solar_size a i1 c1 Heqs1),
      (eq_recommended_solar_size a i2 c2 Heqs2), Hsun.
    unfold Py.ceil, Qdiv at 1 3.
    apply Qmult_le_compat_r; [| discriminate].
    rewrite <- Zle_Qle. apply Qceiling_resp_le.
    apply Qmult_le_compat_r; [| discriminate].
    unfold Qdiv. apply Qmult_le_compat_r; [assumption |].
    apply Qlt_le_weak, Qinv_lt_0_compat. assumption.
Qed.

Lemma sizing_monotone_in_runtime_witness :
  lookup scenario = Py.Ok mill_2kw /\
  calculations mill_2kw scenario = Py.Ok scenario_calculations /\
  exists c2,
    calculations mill_2kw long_day_scenario = Py.Ok c2 /\
    energy_production scenario_calculations <= energy_production c2 /\
    (panels_required scenario_calculations <= panels_required c2)%Z /\
    recommended_solar_size scenario_calculations
    <= recommended_solar_size c2.
Proof.
  split; [vm_compute; reflexivity |]. split; [vm_compute; reflexivity |].
  destruct (calculations mill_2kw long_day_scenario) as [e | c2] eqn:Hc2;
    [vm_compute in Hc2; discriminate Hc2 |].
  exists c2. split; [reflexivity |].
  apply (sizing_monotone_in_runtime mill_2kw scenario long_day_scenario
           scenario_calculations c2);
    [vm_compute; reflexivity | vm_compute; reflexivity | exact Hc2
    | reflexivity | reflexivity | reflexivity | reflexivity | discriminate].
Defined.

(** ** The loan with interest *)

(** Bernoulli's inequality for a base between 0 and 1. *)
Lemma bernoulli_positive (q : Q) (p : positive) :
  0 <= q -> q <= 1 ->
  1 - inject_Z (Z.pos p) * (1 - q) <= Qpower_positive q p.
Proof.
  intros H0 H1. induction p as [| p IH] using Pos.peano_ind.
  - cbn. ring_simplify. apply Qle_refl.
  - rewrite <- Pos.add_1_r, Qpower_plus_positive.
    change (Qpower_positive q 1) with q.
    assert (HN : inject_Z (Z.pos (p + 1)) == inject_Z (Z.pos p) + 1).
    { unfold Qeq, Qplus, inject_Z. cbn. lia. }
    rewrite HN.
    assert (Hp : 1 <= inject_Z (Z.pos p)).
    { change 1 with (inject_Z 1). rewrite <- Zle_Qle. lia. }
    set (N := inject_Z (Z.pos p)) in *.
    set (y := Qpower_positive q p) in *.
    assert (Hy : (1 - N * (1 - q)) * q <= y * q)
      by (apply Qmult_le_compat_r; assumption).
    assert (Hsq : 0 <= N * ((1 - q) * (1 - q))).
    { apply Qmult_le_0_compat; [lra |].
      apply Qmult_le_0_compat; lra. }
    assert (Hid : (1 - N * (1 - q)) * q - (1 - (N + 1) * (1 - q))
                  == N * ((1 - q) * (1 - q))) by ring.
    lra.
Qed.

(** For a positive rate and at least one month, the divisor of the
    amortizing formula lies strictly between 0 and [months * rate] and
    below 1. *)
Lemma amortizing_divisor_bounds (r : Q) (n : Z) :
  0 < r -> (1 <= n)%Z ->
  0 < 1 - (1 + r) ^ (- n) /\
  1 - (1 + r) ^ (- n) < 1 /\
  1 - (1 + r) ^ (- n) < inject_Z n * r.
Proof.
  intros Hr Hn.
  destruct (discount_lt_1 r n Hr Hn) as [Hd0 Hd1].
  split; [lra |]. split; [lra |].
  destruct n as [| p | p]; try lia.
  change ((1 + r) ^ (- Z.pos p)) with (/ Qpower_positive (1 + r) p) in *.
  rewrite <- Qinv_power_positive.
  assert (H1r : 0 < 1 + r) by lra.
  assert (Hq0 : 0 < / (1 + r)) by (apply Qinv_lt_0_compat; assumption).
  assert (Hq : 1 - / (1 + r) == r * / (1 + r)) by (field; lra).
  assert (Hq1 : / (1 + r) < 1).
  { change (/ (1 + r) < / 1).
    apply (proj1 (Qinv_lt_contravar 1 (1 + r) eq_refl H1r)). lra. }
  assert (Hb := bernoulli_positive (/ (1 + r)) p
                  (Qlt_le_weak _ _ Hq0) (Qlt_le_weak _ _ Hq1)).
  assert (HN : 0 < inject_Z (Z.pos p)) by reflexivity.
  assert (Hlt : inject_Z (Z.pos p) * (1 - / (1 + r))
                < inject_Z (Z.pos p) * r).
  { apply Qmult_lt_l; [assumption |].
    assert (r * / (1 + r) < r * 1) by (apply Qmult_lt_l; assumption).
    lra. }
  lra.
Qed.

(** X5.  In exact (rational) arithmetic a loan at a positive interest rate
    over at least one year on a positive principal costs interest: each
    monthly repayment exceeds one month's interest on the whole principal,
    the total repayment exceeds the principal, and the total interest paid
    is positive.  (In binary64 the cancellation in
    [1 - (1 + monthly_rate) ** (-months)] can turn the total interest
    negative for very small rates.) *)
Theorem loan_interest_positive
  (c : Calculations) (k : Costs) (i : Form) (l : Loan) :
  loan c k i = Py.Ok l ->
  0 < interest_rate i -> (1 <= loan_term_years i)%Z ->
  0 < loan_principal_usd k ->
  loan_principal_usd k * monthly_rate l < monthly_repayment_usd l /\
  loan_principal_usd k < total_repayment_usd l /\
  0 < total_interest_paid_usd l.
Proof.
  intros Hl Hrate Hterm Hprin.
  destruct (loan_inv c k i l Hl) as [Hmo Hra Hrep Htot Hint _ _ _].
  assert (Hr : 0 < monthly_rate l).
  { rewrite Hra. apply Qlt_shift_div_l; [reflexivity |]. lra. }
  assert (Hn : (1 <= months l)%Z) by (rewrite Hmo; lia).
  rewrite monthly_repayment_amortizing in Hrep by assumption.
  apply div_inv in Hrep as [_ Hm].
  destruct (amortizing_divisor_bounds _ _ Hr Hn) as (HD0 & HD1 & HDn).
  set (D := 1 - (1 + monthly_rate l) ^ (- months l)) in *.
  set (P := loan_principal_usd k) in *.
  set (r := monthly_rate l) in *.
  assert (HA : 0 < P * r) by (apply Qmult_lt_0_compat; assumption).
  assert (H1 : P * r < monthly_repayment_usd l).
  { rewrite Hm. apply Qlt_shift_div_l; [assumption |].
    rewrite <- (Qmult_1_r (P * r)) at 2.
    apply Qmult_lt_l; assumption. }
  assert (H2 : P < total_repayment_usd l).
  { rewrite Htot, Hm.
    assert (Hre : inject_Z (months l) * (P * r / D)
                  == P * (inject_Z (months l) * r) / D)
      by (field; lra).
    rewrite Hre. apply Qlt_shift_div_l; [assumption |].
    apply Qmult_lt_l; assumption. }
  split; [assumption |]. split; [assumption |].
  rewrite Hint. lra.
Qed.

Lemma loan_interest_positive_witness :
  0 < interest_rate scenario /\
  (1 <= loan_term_years scenario)%Z /\
  0 < loan_principal_usd scenario_costs /\
  exists l,
    loan scenario_calculations scenario_costs scenario = Py.Ok l /\
    loan_principal_usd scenario_costs * monthly_rate l
    < monthly_repayment_usd l /\
    loan_principal_usd scenario_costs < total_repayment_usd l /\
    0 < total_interest_paid_usd l.
Proof.
  split; [reflexivity |]. split; [discriminate |]. split; [reflexivity |].
  destruct (loan scenario_calculations scenario_costs scenario)
    as [e | l] eqn:Hl; [vm_compute in Hl; discriminate Hl |].
  exists l. split; [reflexivity |].
  apply (loan_interest_positive scenario_calculations scenario_costs
           scenario l Hl);
    [reflexivity | discriminate | reflexivity].
Defined.

(** X6.  In exact (rational) arithmetic the monthly repayment is linear in
    the principal: on a principal multiplied by a factor (an exchange rate,
    say) the statement returns the repayment multiplied by the same factor,
    and it raises when the original raises.  (In binary64 the two sides can
    differ in the last bit.) *)
Theorem monthly_repayment_linear (principal s : Q) (n : Z) (r : Q) :
  match monthly_repayment principal n r with
  | Py.Ok m =>
      exists m', monthly_repayment (principal * s) n r = Py.Ok m' /\
                 m' == m * s
  | Py.Raise e => monthly_repayment (principal * s) n r = Py.Raise e
  end.
Proof.
  unfold monthly_repayment.
  destruct (Py.gt0 r).
  - destruct (Py.pow (1 + r) (- n)) as [e | d]; cbn [Py.bind];
      [reflexivity |].
    destruct (div_cases (principal * r) (1 - d)) as [[Hz ->] | [Hnz ->]].
    + apply div_raises. assumption.
    + rewrite div_returns by assumption.
      eexists. split; [reflexivity |]. field. assumption.
  - destruct (div_cases principal (inject_Z n)) as [[Hz ->] | [Hnz ->]].
    + apply div_raises. assumption.
    + rewrite div_returns by assumption.
      eexists. split; [reflexivity |]. field. assumption.
Qed.

(** ** Verdict, payback and repayment share *)

Lemma monthly_repayment_nonpos (principal : Q) (n : Z) (r m : Q) :
  (1 <= n)%Z -> monthly_repayment principal n r = Py.Ok m ->
  principal <= 0 -> m <= 0.
Proof.
  intros Hn Hm Hp. destruct (Qlt_le_dec 0 m) as [H | H]; [| assumption].
  assert (H0 := monthly_repayment_pos_principal principal n r m Hn Hm H).
  lra.
Qed.

Lemma not_viable_business (net daily : Q) :
  viability_text (business_viability net daily) <> Viable ->
  viable_business (business_viability net daily) = false.
Proof.
  intros H. apply not_true_is_false. intros Hv.
  apply H, viable_business_true. assumption.
Qed.

(** X7.  A deposit that covers the whole installed cost leaves nothing to
    repay, and the verdict is then "N/A", never "Yes": for a loan term of at
    least one year and a deposit of at least the installed cost, the daily
    repayment is zero or negative, the verdict is NotApplicable and the
    payback block shows the warning instead of a payback period. *)
Theorem full_deposit_not_applicable
  (rates : gmap string Q) (i : Form) (r : Results) :
  calculate rates i = Py.Ok r ->
  (1 <= loan_term_years i)%Z ->
  total_with_import_usd (cost r) <= deposit i ->
  daily_repayment_usd (repayment r) <= 0 /\
  viability_text (viability r) = NotApplicable /\
  viable_business (viability r) = false /\
  payback i r = Py.Ok None.
Proof.
  intros Hr Hterm Hdep.
  destruct (calculate_inv rates i r Hr) as (_ & _ & _ & Hk & Hl & Hvi).
  assert (Hleqs := loan_inv _ _ _ _ Hl).
  assert (Hprin : loan_principal_usd (cost r) <= 0).
  { rewrite Hk in Hdep |- *. rewrite costs_principal. lra. }
  assert (Hm : monthly_repayment_usd (repayment r) <= 0).
  { apply (monthly_repayment_nonpos (loan_principal_usd (cost r))
             (months (repayment r)) (monthly_rate (repayment r))).
    - rewrite (eq_months _ _ _ _ Hleqs). lia.
    - apply (eq_monthly_repayment _ _ _ _ Hleqs).
    - assumption. }
  assert (Hd : daily_repayment_usd (repayment r) <= 0).
  { rewrite (loan_daily_repayment _ _ _ _ Hleqs).
    apply Qle_shift_div_r; [reflexivity |]. lra. }
  assert (Hna : viability_text (viability r) = NotApplicable).
  { rewrite Hvi. apply viability_text_not_applicable. now right. }
  assert (Hvb : viable_business (viability r) = false).
  { rewrite Hvi in Hna |- *. apply not_viable_business.
    rewrite Hna. discriminate. }
  split; [assumption |]. split; [assumption |]. split; [assumption |].
  unfold payback. rewrite Hvb. reflexivity.
Qed.

Lemma full_deposit_not_applicable_witness :
  (1 <= loan_term_years paid_up_scenario)%Z /\
  exists r,
    calculate ∅ paid_up_scenario = Py.Ok r /\
    total_with_import_usd (cost r) <= deposit paid_up_scenario /\
    daily_repayment_usd (repayment r) <= 0 /\
    viability_text (viability r) = NotApplicable /\
    viable_business (viability r) = false /\
    payback paid_up_scenario r = Py.Ok None.
Proof.
  split; [discriminate |].
  destruct (calculate ∅ paid_up_scenario) as [e | r] eqn:Hr;
    [vm_compute in Hr; discriminate Hr |].
  assert (Hd : total_with_import_usd (cost r) <= deposit paid_up_scenario).
  { vm_compute in Hr. injection Hr as <-. discriminate. }
  exists r. split; [reflexivity |]. split; [exact Hd |].
  exact (full_deposit_not_applicable ∅ paid_up_scenario r Hr
           ltac:(discriminate) Hd).
Defined.

(** X8.  The payback block on a result of the calculation: a verdict other
    than Viable shows the warning; a Viable verdict gives the payback years
    unless the operating days are zero, in which case the division raises
    [ZeroDivisionError]. *)
Theorem payback_outcome (rates : gmap string Q) (i : Form) (r : Results) :
  calculate rates i = Py.Ok r ->
  (viability_text (viability r) <> Viable -> payback i r = Py.Ok None) /\
  (viability_text (viability r) = Viable -> operating_days i <> 0%Z ->
   payback i r =
   Py.Ok (Some (total_with_import_usd (cost r)
                / (net_income_per_day (calc r)
                   * inject_Z (operating_days i))))) /\
  (viability_text (viability r) = Viable -> operating_days i = 0%Z ->
   payback i r = Py.Raise Py.ZeroDivisionError).
Proof.
  intros Hr.
  destruct (calculate_inv rates i r Hr) as (_ & _ & _ & _ & Hl & Hvi).
  assert (Hleqs := loan_inv _ _ _ _ Hl).
  split.
  { intros Hnv. unfold payback. rewrite Hvi in Hnv |- *.
    rewrite (not_viable_business _ _ Hnv). reflexivity. }
  assert (Hguard : viability_text (viability r) = Viable ->
                   0 < net_income_per_day (calc r) /\
                   viable_business (viability r)
                   && Py.gt0 (annual_repayment_usd (repayment r)) = true).
  { intros Hv. rewrite Hvi in Hv |- *.
    assert (Hvb := proj2 (viable_business_true _ _) Hv).
    apply viability_text_viable in Hv as (Hn & Hd & _).
    split; [assumption |]. rewrite Hvb. cbn [andb]. apply gt0_true.
    rewrite (eq_daily_repayment _ _ _ _ Hleqs) in Hd.
    set (y := annual_repayment_usd (repayment r)) in *.
    assert (y == y / 365 * 365) by (field; discriminate). lra. }
  split; intros Hv Hdays; destruct (Hguard Hv) as [Hn Hg];
    unfold payback; rewrite Hg.
  - rewrite div_returns; [reflexivity |].
    intros E. apply Qmult_integral in E as [E | E].
    + rewrite E in Hn. discriminate.
    + apply (proj1 (inject_Z_zero _)) in E. exact (Hdays E).
  - rewrite div_raises; [reflexivity |]. rewrite Hdays. ring.
Qed.

Lemma payback_outcome_witness :
  exists r,
    calculate ∅ scenario = Py.Ok r /\
    (viability_text (viability r) <> Viable ->
     payback scenario r = Py.Ok None) /\
    (viability_text (viability r) = Viable ->
     operating_days scenario <> 0%Z ->
     payback scenario r =
     Py.Ok (Some (total_with_import_usd (cost r)
                  / (net_income_per_day (calc r)
                     * inject_Z (operating_days scenario))))) /\
    (viability_text (viability r) = Viable ->
     operating_days scenario = 0%Z ->
     payback scenario r = Py.Raise Py.ZeroDivisionError).
Proof.
  destruct (calculate ∅ scenario) as [e | r] eqn:Hr;
    [vm_compute in Hr; discriminate Hr |].
  exists r. split; [reflexivity |].
  exact (payback_outcome ∅ scenario r Hr).
Defined.



(** X10.  Without income the repayment share is defined as zero rather than
    dividing by zero, and with a daily operating cost that is not negative
    the verdict is "N/A": for an income per day of zero or less the
    calculation, when it returns, has [repayment_percentage = 0] and the
    verdict NotApplicable. *)
Theorem no_income_not_applicable
  (rates : gmap string Q) (i : Form) (r : Results) :
  calculate rates i = Py.Ok r ->
  income_per_day (calc r) <= 0 ->
  repayment_percentage (repayment r) = 0 /\
  (0 <= daily_operating_cost i ->
   viability_text (viability r) = NotApplicable /\
   payback i r = Py.Ok None).
Proof.
  intros Hr Hinc.
  destruct (calculate_inv rates i r Hr) as (_ & _ & Hc & _ & Hl & Hvi).
  destruct (calculations_inv _ _ _ Hc) as (_ & _ & _ & Hceqs).
  assert (Hleqs := loan_inv _ _ _ _ Hl).
  split.
  { rewrite (eq_repayment_percentage _ _ _ _ Hleqs),
      (proj2 (gt0_false _) Hinc). reflexivity. }
  intros Hcost.
  assert (Hna : viability_text (viability r) = NotApplicable).
  { rewrite Hvi. apply viability_text_not_applicable. left.
    rewrite (eq_net_income_per_day _ _ _ Hceqs). lra. }
  split; [assumption |].
  unfold payback. rewrite Hvi in Hna |- *.
  rewrite not_viable_business; [reflexivity |].
  rewrite Hna. discriminate.
Qed.

Lemma no_income_not_applicable_witness :
  exists r,
    calculate ∅ no_income_scenario = Py.Ok r /\
    income_per_day (calc r) <= 0 /\
    repayment_percentage (repayment r) = 0 /\
    (0 <= daily_operating_cost no_income_scenario ->
     viability_text (viability r) = NotApplicable /\
     payback no_income_scenario r = Py.Ok None).
Proof.
  destruct (calculate ∅ no_income_scenario) as [e | r] eqn:Hr;
    [vm_compute in Hr; discriminate Hr |].
  assert (Hinc : income_per_day (calc r) <= 0).
  { vm_compute in Hr. injection Hr as <-. discriminate. }
  exists r. split; [reflexivity |]. split; [exact Hinc |].
  exact (no_income_not_applicable ∅ no_income_scenario r Hr Hinc).
Defined.

(** ** Costs *)

Lemma scenario_in_bounds : widget_bounds scenario.
Proof.
  split; cbn; try discriminate; try (split; discriminate).
  - right. left. reflexivity.
  - right. left. reflexivity.
Defined.

Lemma ceil_nonneg (x : Q) : 0 <= x -> (0 <= Py.ceil x)%Z.
Proof.
  intros H. unfold Py.ceil. change 0%Z with (Qceiling 0).
  apply Qceiling_resp_le. assumption.
Qed.

(** X11.  Within the bounds of the widgets no cost is negative and the
    totals are ordered: the inverter, controller and battery costs are not
    negative and one of inverter and controller cost is zero; the FOB
    subtotal is at least the appliance price, which is positive; the
    installed cost lies between the FOB subtotal and twice the FOB
    subtotal; the loan principal does not exceed the installed cost. *)
Theorem costs_within_bounds
  (rates : gmap string Q) (i : Form) (r : Results) :
  calculate rates i = Py.Ok r -> widget_bounds i ->
  (0 <= panels_required (calc r))%Z /\
  0 <= inverter_cost (cost r) /\
  0 <= controller_cost (cost r) /\
  (inverter_cost (cost r) = 0 \/ controller_cost (cost r) = 0) /\
  0 <= battery_cost (cost r) /\
  0 < inject_Z (price_usd (appliance r)) /\
  inject_Z (price_usd (appliance r)) <= fob_subtotal_usd (cost r) /\
  fob_subtotal_usd (cost r) <= total_with_import_usd (cost r) /\
  total_with_import_usd (cost r) <= 2 * fob_subtotal_usd (cost r) /\
  loan_principal_usd (cost r) <= total_with_import_usd (cost r).
Proof.
  intros Hr Hb.
  destruct (calculate_inv rates i r Hr) as (Ha & _ & Hc & Hk & _ & _).
  destruct (calculations_inv _ _ _ Hc) as (_ & _ & _ & Hceqs).
  destruct Hb as [_ _ Hrun _ _ Hsun Heff Hbat _ _ Hdep Hinst].
  assert (Hp := lookup_power_pos i _ Ha).
  destruct (efficiency_fraction_bounds i Heff) as [Hd0 _].
  assert (HE : 0 <= energy_production (calc r)).
  { rewrite (eq_energy_production _ _ _ Hceqs),
      (eq_energy_required _ _ _ Hceqs).
    apply Qle_shift_div_l; [assumption |]. rewrite Qmult_0_l.
    apply Qmult_le_0_compat; lra. }
  assert (Hpanels : (0 <= panels_required (calc r))%Z).
  { rewrite (eq_panels_required _ _ _ Hceqs). apply ceil_nonneg.
    apply Qle_shift_div_l; [| rewrite Qmult_0_l; assumption].
    apply Qmult_lt_0_compat; [reflexivity | lra]. }
  assert (Hsize : 0 <= recommended_solar_size (calc r)).
  { rewrite (eq_recommended_solar_size _ _ _ Hceqs).
    apply Qle_shift_div_l; [reflexivity |]. rewrite Qmult_0_l.
    change 0 with (inject_Z 0). rewrite <- Zle_Qle. apply ceil_nonneg.
    apply Qmult_le_0_compat; [| discriminate].
    apply Qle_shift_div_l; [lra | rewrite Qmult_0_l; assumption]. }
  assert (Hcap : 0 <= battery_capacity (calc r)).
  { rewrite (eq_battery_capacity _ _ _ Hceqs).
    apply Qmult_le_0_compat; [assumption |].
    change 0 with (inject_Z 0). rewrite <- Zle_Qle. assumption. }
  assert (Hpc : 0 <= inject_Z (solar_panel_cost (calc r))).
  { rewrite (eq_solar_panel_cost _ _ _ Hceqs).
    change 0 with (inject_Z 0). rewrite <- Zle_Qle. unfold panel_cost. lia. }
  assert (Hprice : 0 < inject_Z (price_usd (appliance r))).
  { destruct (lookup_catalogue i _ Ha) as [[_ ->] | [_ ->]]; reflexivity. }
  assert (Hmul : 1 <= install_multiplier i /\ install_multiplier i <= 2).
  { unfold install_multiplier, Qle, Qplus, Qdiv, Qmult, Qinv, inject_Z.
    cbn. lia. }
  rewrite Hk. unfold costs.
  cbn [inverter_cost controller_cost battery_cost fob_subtotal_usd
       total_with_import_usd loan_principal_usd].
  set (inv := if String.eqb (selected_system i) "AC"
              then recommended_solar_size (calc r) * 100 else 0).
  set (ctl := if String.eqb (selected_system i) "AC" then 0
              else if String.eqb (selected_system i) "DC"
                   then recommended_solar_size (calc r) * 50 else 0).
  assert (Hinv : 0 <= inv).
  { unfold inv. destruct (String.eqb (selected_system i) "AC");
      [apply Qmult_le_0_compat; [assumption | discriminate]
      | apply Qle_refl]. }
  assert (Hctl : 0 <= ctl).
  { unfold ctl. destruct (String.eqb (selected_system i) "AC");
      [apply Qle_refl |].
    destruct (String.eqb (selected_system i) "DC");
      [apply Qmult_le_0_compat; [assumption | discriminate]
      | apply Qle_refl]. }
  assert (Hone : inv = 0 \/ ctl = 0).
  { unfold inv, ctl. destruct (String.eqb (selected_system i) "AC");
      [right | left]; reflexivity. }
  assert (Hb300 : 0 <= battery_capacity (calc r) * 300)
    by (apply Qmult_le_0_compat; [assumption | discriminate]).
  set (fob := inject_Z (price_usd (appliance r))
              + inject_Z (solar_panel_cost (calc r)) + inv + ctl
              + battery_capacity (calc r) * 300).
  assert (Hfob : inject_Z (price_usd (appliance r)) <= fob)
    by (unfold fob; lra).
  assert (Hfob0 : 0 <= fob) by lra.
  destruct Hmul as [Hm1 Hm2].
  assert (Hlo : fob * 1 <= fob * install_multiplier i).
  { rewrite !(Qmult_comm fob). apply Qmult_le_compat_r; assumption. }
  assert (Hhi : fob * install_multiplier i <= fob * 2).
  { rewrite !(Qmult_comm fob). apply Qmult_le_compat_r; assumption. }
  repeat (split; [first [assumption | lra] |]). lra.
Qed.

Lemma costs_within_bounds_witness :
  widget_bounds scenario /\
  exists r,
    calculate ∅ scenario = Py.Ok r /\
    (0 <= panels_required (calc r))%Z /\
    0 <= inverter_cost (cost r) /\
    0 <= controller_cost (cost r) /\
    (inverter_cost (cost r) = 0 \/ controller_cost (cost r) = 0) /\
    0 <= battery_cost (cost r) /\
    0 < inject_Z (price_usd (appliance r)) /\
    inject_Z (price_usd (appliance r)) <= fob_subtotal_usd (cost r) /\
    fob_subtotal_usd (cost r) <= total_with_import_usd (cost r) /\
    total_with_import_usd (cost r) <= 2 * fob_subtotal_usd (cost r) /\
    loan_principal_usd (cost r) <= total_with_import_usd (cost r).
Proof.
  split; [exact scenario_in_bounds |].
  destruct (calculate ∅ scenario) as [e | r] eqn:Hr;
    [vm_compute in Hr; discriminate Hr |].
  exists r. split; [reflexivity |].
  exact (costs_within_bounds ∅ scenario r Hr scenario_in_bounds).
Defined.

(** ** Selection and catalogue lookup *)

Lemma getitem_missing {V : Type} (d : gmap string V) (s : string) :
  d !! s = None -> Py.getitem d s = Py.Raise Py.KeyError.
Proof. intros H. unfold Py.getitem. rewrite H. reflexivity. Qed.

(** X12.  The catalogue lookup returns the three values of the appliance for
    "Mill 2kW" and "Mill 3kW" and raises [KeyError] for every other name;
    it never returns for a name outside the catalogue and never raises
    anything else. *)
Theorem lookup_outcome (i : Form) :
  (selected_appliance i = "Mill 2kW" -> lookup i = Py.Ok mill_2kw) /\
  (selected_appliance i = "Mill 3kW" -> lookup i = Py.Ok mill_3kw) /\
  (selected_appliance i <> "Mill 2kW" ->
   selected_appliance i <> "Mill 3kW" ->
   lookup i = Py.Raise Py.KeyError) /\
  (forall e, lookup i = Py.Raise e -> e = Py.KeyError).
Proof.
  assert (Hmiss : selected_appliance i <> "Mill 2kW" ->
                  selected_appliance i <> "Mill 3kW" ->
                  lookup i = Py.Raise Py.KeyError).
  { intros H2 H3. unfold lookup. rewrite getitem_missing; [reflexivity |].
    unfold power_map. rewrite lookup_insert_ne by congruence.
    apply lookup_singleton_ne. congruence. }
  split; [intros H; unfold lookup; rewrite H; vm_compute; reflexivity |].
  split; [intros H; unfold lookup; rewrite H; vm_compute; reflexivity |].
  split; [assumption |].
  intros e He.
  destruct (decide (selected_appliance i = "Mill 2kW")) as [H2 | H2].
  { unfold lookup in He. rewrite H2 in He. vm_compute in He.
    discriminate He. }
  destruct (decide (selected_appliance i = "Mill 3kW")) as [H3 | H3].
  { unfold lookup in He. rewrite H3 in He. vm_compute in He.
    discriminate He. }
  rewrite (Hmiss H2 H3) in He. now injection He as <-.
Qed.

(** X13.  The page shows the selection error exactly when one of the two
    select boxes is left at "Choose one", and then nothing is looked up or
    computed; with both selections made, an appliance name outside the
    catalogue raises [KeyError]. *)
Theorem on_calculate_selection (rates : gmap string Q) (i : Form) :
  (on_calculate rates i = Py.Ok SelectionError <->
   selected_appliance i = "Choose one" \/ selected_system i = "Choose one")
  /\
  (selected_appliance i <> "Choose one" ->
   selected_system i <> "Choose one" ->
   selected_appliance i <> "Mill 2kW" ->
   selected_appliance i <> "Mill 3kW" ->
   on_calculate rates i = Py.Raise Py.KeyError).
Proof.
  split.
  - split; [| apply on_calculate_unselected].
    unfold on_calculate.
    destruct (String.eqb_spec (selected_appliance i) "Choose one")
      as [Ha | Ha]; [now left |].
    destruct (String.eqb_spec (selected_system i) "Choose one")
      as [Hs | Hs]; [now right |].
    cbn [negb andb].
    destruct (calculate rates i) as [e | r]; cbn [Py.bind]; [discriminate |].
    destruct (payback i r) as [e | y]; cbn [Py.bind]; discriminate.
  - intros Ha Hs H2 H3. unfold on_calculate.
    apply String.eqb_neq in Ha, Hs. rewrite Ha, Hs. cbn [negb andb].
    unfold calculate.
    assert (Hl : lookup i = Py.Raise Py.KeyError).
    { unfold lookup. rewrite getitem_missing; [reflexivity |].
      unfold power_map. rewrite lookup_insert_ne by congruence.
      apply lookup_singleton_ne. congruence. }
    rewrite Hl. reflexivity.
Qed.

(** ** Currencies *)

Lemma keys_spec (rates : gmap string Q) (c : string) :
  c ∈ keys rates <-> is_Some (rates !! c).
Proof.
  unfold keys. rewrite list_elem_of_fmap. split.
  - intros ([k v] & -> & H). apply elem_of_map_to_list in H.
    cbn. rewrite H. eexists. reflexivity.
  - intros [v H]. exists (c, v). split; [reflexivity |].
    apply elem_of_map_to_list. assumption.
Qed.

Lemma sorted_spec (l : list string) (c : string) : c ∈ sorted l <-> c ∈ l.
Proof. unfold sorted. rewrite merge_sort_Permutation. reflexivity. Qed.

(** X15.  The currency selector offers "USD" first, then every other code
    of the rate table, each exactly once and in ascending order: a code is
    offered exactly when it is "USD" or a key of the table, the list has no
    duplicates, and its tail is sorted. *)
Theorem currencies_offered (rates : gmap string Q) :
  head (currencies rates) = Some "USD" /\
  (forall c, c ∈ currencies rates <-> c = "USD" \/ is_Some (rates !! c)) /\
  NoDup (currencies rates) /\
  StronglySorted String.le (tail (currencies rates)).
Proof.
  unfold currencies. split; [reflexivity |]. split; [| split].
  - intros c. rewrite elem_of_cons, sorted_spec, list_elem_of_filter,
      keys_spec.
    destruct (decide (c = "USD")) as [-> | Hc]; tauto.
  - apply NoDup_cons. split.
    + rewrite sorted_spec, list_elem_of_filter. tauto.
    + unfold sorted. rewrite merge_sort_Permutation.
      apply NoDup_filter. unfold keys. apply NoDup_fst_map_to_list.
  - cbn [tail]. unfold sorted. apply StronglySorted_merge_sort; apply _.
Qed.

(** X16.  Whatever the geolocation service answers, the selected currency
    is one the selector offers: with the location in use it is the detected
    currency when that is offered and "USD" otherwise, in particular when
    the request failed; without the location it is the choice made in the
    select box. *)
Theorem selected_currency_offered
  (rates : gmap string Q) (use_location : bool)
  (ip_info : option (gmap string string)) (choice : string) :
  (use_location = false -> choice ∈ currencies rates) ->
  currency_settings rates use_location ip_info choice ∈ currencies rates /\
  (use_location = true -> ip_info = None ->
   currency_settings rates use_location ip_info choice = "USD") /\
  (use_location = true ->
   forall info, ip_info = Some info -> info !! "currency" = None ->
   currency_settings rates use_location ip_info choice = "USD") /\
  (use_location = true ->
   forall info cur, ip_info = Some info -> info !! "currency" = Some cur ->
   currency_settings rates use_location ip_info choice =
   if bool_decide (cur ∈ currencies rates) then cur else "USD").
Proof.
  intros Hchoice.
  assert (Husd : "USD" ∈ currencies rates)
    by (unfold currencies; apply elem_of_cons; now left).
  split.
  - unfold currency_settings. destruct use_location; [| auto].
    case_bool_decide; assumption.
  - split; [| split].
    + intros -> ->. unfold currency_settings. cbn.
      rewrite bool_decide_eq_true_2; [reflexivity | assumption].
    + intros -> info -> Hnone. unfold currency_settings, get_user_currency.
      cbn [snd].
      assert (Hget : Py.get info "currency" "USD" = "USD")
        by (unfold Py.get; rewrite Hnone; reflexivity).
      rewrite Hget. case_bool_decide; reflexivity.
    + intros -> info cur -> Hsome. unfold currency_settings,
        get_user_currency.
      cbn [snd].
      assert (Hget : Py.get info "currency" "USD" = cur)
        by (unfold Py.get; rewrite Hsome; reflexivity).
      rewrite Hget. reflexivity.
Qed.

Lemma selected_currency_offered_witness :
  (false = false -> "USD" ∈ currencies ∅) /\
  currency_settings ∅ false None "USD" ∈ currencies ∅.
Proof.
  split; [intros _; vm_compute; apply list_elem_of_here |].
  apply (selected_currency_offered ∅ false None "USD").
  intros _. vm_compute. apply list_elem_of_here.
Defined.

(** ** Conversion and rounding at display time *)

Lemma round1_comp (x y : Q) : x == y -> round1 x = round1 y.
Proof.
  intros H. unfold round1, round_half_even.
  assert (Hf : Qfloor (x * 10) = Qfloor (y * 10)) by (rewrite H; reflexivity).
  rewrite Hf.
  assert (Hc : Qcompare (x * 10 - inject_Z (Qfloor (y * 10))) (1 # 2)
               = Qcompare (y * 10 - inject_Z (Qfloor (y * 10))) (1 # 2))
    by (rewrite H; reflexivity).
  rewrite Hc. reflexivity.
Qed.

(** X17.  Without a usable rate nothing is converted: when the rate request
    did not answer 200, or the table has no entry for the selected
    currency, the rate is 1 and every card shows the USD amount, rounded;
    after a failed request the selector offers "USD" alone. *)
Theorem missing_rate_no_conversion
  (status_code : Z) (body_rates : gmap string Q) (i : Form) (r : Results) :
  status_code <> 200%Z \/ body_rates !! selected_currency i = None ->
  calculate (get_exchange_rates status_code body_rates) i = Py.Ok r ->
  rate r = 1 /\
  money_cards i r
  = map (fun card => (fst card, round1 (snd card))) (usd_amounts i r) /\
  (status_code <> 200%Z ->
   currencies (get_exchange_rates status_code body_rates) = ["USD"]).
Proof.
  intros Hmiss Hr.
  assert (Hnone : get_exchange_rates status_code body_rates
                    !! selected_currency i = None).
  { unfold get_exchange_rates.
    destruct (Z.eqb_spec status_code 200) as [E | E];
      [| apply lookup_empty].
    destruct Hmiss as [H | H]; [contradiction | assumption]. }
  destruct (calculate_inv _ i r Hr) as (_ & Hrate & _).
  assert (H1 : rate r = 1).
  { rewrite Hrate. unfold Py.get. rewrite Hnone. reflexivity. }
  split; [assumption |]. split.
  - rewrite money_cards_displayed, H1. apply map_ext.
    intros [t x]. unfold displayed. cbn [fst snd]. f_equal.
    apply round1_comp. ring.
  - intros Hs. unfold get_exchange_rates.
    destruct (Z.eqb_spec status_code 200) as [E | E]; [contradiction |].
    reflexivity.
Qed.

Lemma missing_rate_no_conversion_witness :
  (503%Z <> 200%Z \/ (∅ : gmap string Q) !! selected_currency scenario = None)
  /\
  exists r,
    calculate (get_exchange_rates 503 ∅) scenario = Py.Ok r /\
    rate r = 1 /\
    money_cards scenario r
    = map (fun card => (fst card, round1 (snd card)))
        (usd_amounts scenario r) /\
    (503%Z <> 200%Z -> currencies (get_exchange_rates 503 ∅) = ["USD"]).
Proof.
  split; [left; discriminate |].
  destruct (calculate (get_exchange_rates 503 ∅) scenario) as [e | r] eqn:Hr;
    [vm_compute in Hr; discriminate Hr |].
  exists r. split; [reflexivity |].
  assert (Hmiss : 503%Z <> 200%Z
                  \/ (∅ : gmap string Q) !! selected_currency scenario = None)
    by (left; discriminate).
  exact (missing_rate_no_conversion 503 ∅ scenario r Hmiss Hr).
Defined.

Lemma round_half_even_near (y : Q) :
  y - (1 # 2) <= inject_Z (round_half_even y) /\
  inject_Z (round_half_even y) <= y + (1 # 2).
Proof.
  unfold round_half_even.
  assert (Hlo := Qfloor_le y). assert (Hhi := Qlt_floor y).
  assert (Hs : inject_Z (Qfloor y + 1) == inject_Z (Qfloor y) + 1)
    by (rewrite inject_Z_plus; reflexivity).
  rewrite Hs in Hhi.
  destruct (Qcompare (y - inject_Z (Qfloor y)) (1 # 2)) eqn:E.
  - apply Qeq_alt in E.
    destruct (Z.even (Qfloor y)); rewrite ?Hs; split; lra.
  - apply Qlt_alt in E. split; lra.
  - apply Qgt_alt in E. rewrite Hs. split; lra.
Qed.

(** X18.  Rounding for display moves an amount by at most 0.05: the value a
    card shows is a whole number of tenths and differs from the USD amount
    times the rate by no more than one twentieth. *)
Theorem money_cards_within_half_tenth (i : Form) (r : Results) :
  Forall2
    (fun card amount =>
       fst card = fst amount /\
       (exists tenths : Z, snd card = inject_Z tenths / 10) /\
       snd amount * rate r - (1 # 20) <= snd card /\
       snd card <= snd amount * rate r + (1 # 20))
    (money_cards i r) (usd_amounts i r).
Proof.
  rewrite money_cards_displayed. apply Forall2_fmap_l, Forall_Forall2_diag.
  apply Forall_forall. intros [t x] _. unfold displayed. cbn [fst snd].
  split; [reflexivity |]. split; [eexists; reflexivity |].
  unfold round1. cbn [fst snd].
  destruct (round_half_even_near (x * rate r * 10)) as [Hlo Hhi].
  set (z := inject_Z (round_half_even (x * rate r * 10))) in *.
  split.
  - apply Qle_shift_div_l; [reflexivity |]. lra.
  - apply Qle_shift_div_r; [reflexivity |]. lra.
Qed.

(** * The program in binary64 *)

(** The binary64 model agrees with the exact one on the sizing of the
    default scenario, where every value is a binary64 number. *)
Example binary64_scenario_sizing :
  match Binary64.calculations
          {| Binary64.power := 2; Binary64.price_usd := 600;
             Binary64.processing_speed := 100 |} Binary64.scenario with
  | Binary64.Ok c =>
      Binary64.to_Q (Binary64.energy_required_per_day c) == 8 /\
      Binary64.to_Q (Binary64.energy_production c) == 10 /\
      Binary64.panels_required c = 5%Z /\
      Binary64.to_Q (Binary64.recommended_solar_size c) == 25 # 10 /\
      Binary64.to_Q (Binary64.battery_capacity c) == 25 # 10
  | _ => False
  end.
Proof. vm_compute. repeat split. Qed.

(** C4, counterexample.  A form within the widget bounds (Mill 2kW, 1.8 h
    of runtime, 1.2 sun hours, 25 per cent efficiency) for which the
    program returns 24 panels although 24 panels fall short: both as the
    program would evaluate [24 * 0.5 * sun_hours >= energy_production] and
    on the exact values of these floats, [24 * 0.5 * sun_hours] is less
    than [energy_production]. *)
Lemma panels_fall_short_in_binary64 :
  Binary64.in_widget_bounds Binary64.short_day = true /\
  exists a c,
    Binary64.lookup Binary64.short_day = Binary64.Ok a /\
    Binary64.calculations a Binary64.short_day = Binary64.Ok c /\
    Binary64.panels_required c = 24%Z /\
    PrimFloat.leb
      (Binary64.energy_production c)
      (Binary64.float_of_int (Binary64.panels_required c)
       * Binary64.panel_wattage_kw
       * Binary64.sun_hours Binary64.short_day)%float = false /\
    inject_Z (Binary64.panels_required c)
    * Binary64.to_Q Binary64.panel_wattage_kw
    * Binary64.to_Q (Binary64.sun_hours Binary64.short_day)
    < Binary64.to_Q (Binary64.energy_production c).
Proof.
  split; [vm_compute; reflexivity |].
  eexists. eexists.
  split; [vm_compute; reflexivity |].
  split; [vm_compute; reflexivity |].
  split; [reflexivity |]. split; vm_compute; reflexivity.
Qed.

(** C5, counterexample.  For the same form the program recommends 12.0 kWp
    although [12.0 * sun_hours] is less than [energy_production], as the
    program would evaluate the comparison and on the exact values. *)
Lemma recommended_size_falls_short_in_binary64 :
  Binary64.in_widget_bounds Binary64.short_day = true /\
  exists a c,
    Binary64.lookup Binary64.short_day = Binary64.Ok a /\
    Binary64.calculations a Binary64.short_day = Binary64.Ok c /\
    Binary64.to_Q (Binary64.recommended_solar_size c) == 12 /\
    PrimFloat.leb
      (Binary64.energy_production c)
      (Binary64.recommended_solar_size c
       * Binary64.sun_hours Binary64.short_day)%float = false /\
    Binary64.to_Q (Binary64.recommended_solar_size c)
    * Binary64.to_Q (Binary64.sun_hours Binary64.short_day)
    < Binary64.to_Q (Binary64.energy_production c).
Proof.
  split; [vm_compute; reflexivity |].
  eexists. eexists.
  split; [vm_compute; reflexivity |].
  split; [vm_compute; reflexivity |].
  split; [vm_compute; reflexivity |]. split; vm_compute; reflexivity.
Qed.

(** C8, counterexample.  A form within the widget bounds (the default
    values at an interest of 1e-13 per cent a year, 36 months) for which
    [monthly_rate] is positive, [1 + monthly_rate] is 1.0, and the program
    raises [ZeroDivisionError] at the division of line 397. *)
Lemma tiny_rate_divides_by_zero_in_binary64 :
  let i := Binary64.tiny_interest in
  let monthly_rate := (Binary64.interest_rate i / 12)%float in
  Binary64.in_widget_bounds i = true /\
  (1 <= Binary64.loan_term_years i * 12)%Z /\
  PrimFloat.ltb 0 monthly_rate = true /\
  PrimFloat.eqb (1 + monthly_rate) 1 = true /\
  (forall principal,
     Binary64.monthly_repayment principal
       (Binary64.loan_term_years i * 12) monthly_rate
     = Binary64.Raise Binary64.ZeroDivisionError) /\
  Binary64.calculate i = Binary64.Raise Binary64.ZeroDivisionError.
Proof.
  cbv zeta.
  split; [vm_compute; reflexivity |].
  split; [vm_compute; discriminate |].
  split; [vm_compute; reflexivity |].
  split; [vm_compute; reflexivity |].
  split; [| vm_compute; reflexivity].
  intros principal. unfold Binary64.monthly_repayment.
  assert (Hr : PrimFloat.ltb 0
                 (Binary64.interest_rate Binary64.tiny_interest / 12)%float
               = true) by (vm_compute; reflexivity).
  rewrite Hr.
  assert (Hp : Binary64.pow
                 (1 + Binary64.interest_rate Binary64.tiny_interest / 12)
                 (- (Binary64.loan_term_years Binary64.tiny_interest * 12))
               = Binary64.Ok 1%float) by (vm_compute; reflexivity).
  rewrite Hp. reflexivity.
Qed.

(** C9, counterexample.  A form within the widget bounds (the default
    values without interest, at an income of 1e308 USD per kg) for which
    the verdict is Viable and the payback block returns 0.0 years: the
    payback is defined but not strictly positive. *)
Lemma payback_zero_in_binary64 :
  let i := Binary64.huge_income in
  Binary64.in_widget_bounds i = true /\
  (1 <= Binary64.operating_days i)%Z /\
  exists r payback_years,
    Binary64.calculate i = Binary64.Ok r /\
    Binary64.viability_text (Binary64.viability r) = Viable /\
    Binary64.payback i r = Binary64.Ok (Some payback_years) /\
    PrimFloat.ltb 0 payback_years = false /\
    PrimFloat.eqb payback_years 0 = true.
Proof.
  cbv zeta.
  split; [vm_compute; reflexivity |].
  split; [vm_compute; discriminate |].
  eexists. eexists.
  split; [vm_compute; reflexivity |].
  split; [reflexivity |].
  split; [vm_compute; reflexivity |].
  split; vm_compute; reflexivity.
Qed.
